(** * use-supabase-state: the row hook and the client registry

    A shallow embedding of [src/init.ts] and [src/useRowState.ts].

    The hook keeps two React state cells ([data], [isLoaded]), one ref
    ([channelRef]) and one closure variable ([isMounted]); it talks to the
    store client ([supabase]) and to [options.logger].  All of these are
    gathered in one record, [World], and the hook's code is written in a
    small state monad over it, so that every function below can be read
    next to the TypeScript function of the same name.

    Two things are not the hook's to decide and are carried as data: how
    often React runs an updater the hook hands to it ([updater_runs], in the
    world), and what the client does when [subscribe()] is called on a
    channel it already holds ([subscribe_held], in the client). *)

From Stdlib Require Import String List Bool Arith Lia.
Import ListNotations.
Local Open Scope string_scope.
Local Open Scope list_scope.

(** ** JavaScript values *)

(** [x | null | undefined], as the type of the [rowId] argument. *)
Inductive Nullable (A : Type) : Type :=
| js_undefined
| js_null
| js_value (a : A).
Arguments js_undefined {A}.
Arguments js_null {A}.
Arguments js_value {A} a.

(** A destructuring default, [{ x = d } = options]. *)
Definition or_default {A : Type} (o : option A) (d : A) : A :=
  match o with
  | Some a => a
  | None => d
  end.

(** A thrown [Error]. *)
Inductive JsError : Type :=
| Error (message : string).

(** The error object of a store response; only [message] is read. *)
Record PostgrestError : Type := { message : string }.

(** ** The store client *)

Definition REALTIME_LISTEN_TYPES_POSTGRES_CHANGES : string := "postgres_changes".
Definition REALTIME_POSTGRES_CHANGES_LISTEN_EVENT_ALL : string := "*".

Record ChangesFilter : Type := {
  filter_event : string;
  filter_schema : string;
  filter_table : string;
  filter_filter : string
}.

Record RealtimeChannel : Type := {
  chan_id : nat;
  topic : string;
  listen_type : string;
  changes : ChangesFilter
}.

(** Modelled from the spec: the store client is an external collaborator
    (section 6: [subscribe(channelKey, filter) -> handle], [unsubscribe(handle)],
    enumeration of the live registrations).  The client is the list of its
    live registrations and a counter for fresh handles.

    What [ch.subscribe()] does when it is called again, on a channel the
    client already holds, is the client library's affair (section 9 leaves
    it open), so the client carries it as a method: given the channel and
    the channels held, it throws, or it returns and leaves the channels of
    its result. *)
Record SupabaseClient : Type := {
  channels : list RealtimeChannel;
  next_chan_id : nat;
  subscribe_held :
    RealtimeChannel -> list RealtimeChannel -> JsError + list RealtimeChannel
}.

(** [supabase.getChannels()] *)
Definition getChannels (c : SupabaseClient) : list RealtimeChannel := channels c.

Definition same_channel (a b : RealtimeChannel) : bool :=
  Nat.eqb (chan_id a) (chan_id b).

(** Modelled from the spec: [supabase.removeChannel(ch)] releases the
    registration [ch]; releasing a registration that is not live changes
    nothing (section 4.2, [close] is idempotent). *)
Definition client_removeChannel (ch : RealtimeChannel) (c : SupabaseClient) : SupabaseClient :=
  {| channels := filter (fun x => negb (same_channel x ch)) (channels c);
     next_chan_id := next_chan_id c;
     subscribe_held := subscribe_held c |}.

(** Whether [ch] is a live registration of the client. *)
Definition registered (ch : RealtimeChannel) (c : SupabaseClient) : bool :=
  existsb (fun x => same_channel x ch) (channels c).

(** [channels.find(ch => ch.subscribe().topic === key)]: [find] tries the
    channels in turn until one passes the test, and the test first calls
    [ch.subscribe()], which returns [ch] or throws.  The result is the
    channels the client holds afterwards, with the error thrown or the
    channel found. *)
Fixpoint find_subscribing
    (subscribe : RealtimeChannel -> list RealtimeChannel -> JsError + list RealtimeChannel)
    (key : string) (todo held : list RealtimeChannel)
    : list RealtimeChannel * (JsError + option RealtimeChannel) :=
  match todo with
  | [] => (held, inr None)
  | ch :: rest =>
      match subscribe ch held with
      | inl e => (held, inl e)
      | inr held' =>
          if String.eqb (topic ch) key
          then (held', inr (Some ch))
          else find_subscribing subscribe key rest held'
      end
  end.

(** ** init.ts *)

Module Init.

(** [let supabaseClient: SupabaseClient | null = null] *)
Definition Registry : Type := option SupabaseClient.

Definition supabaseClient0 : Registry := None.

Definition initSupabaseState (client : SupabaseClient) (_ : Registry) : Registry :=
  Some client.

Definition not_initialized : JsError :=
  Error "Supabase client not initialized. Call initSupabaseState(client) first.".

(** A client is an object, hence truthy: [!supabaseClient] holds exactly
    for [null]. *)
Definition getSupabaseClient (supabaseClient : Registry) : JsError + SupabaseClient :=
  match supabaseClient with
  | None => inl not_initialized
  | Some client => inr client
  end.

(** The registry after a sequence of [initSupabaseState] calls, oldest
    first. *)
Definition after_calls (clients : list SupabaseClient) : Registry :=
  fold_left (fun reg client => initSupabaseState client reg) clients supabaseClient0.

End Init.

(** ** useRowState.ts *)

Section UseRowState.

(** [T], the row type; [PKType], the type of the primary key value; the
    coercion of a key to a string that a template literal applies; and the
    topic under which the client files a channel opened with a given name
    (the client library decides it). *)
Variable T : Type.
Variable PKType : Type.
Variable String_of : PKType -> string.
Variable channel_topic : string -> string.

(** [type RowState<T> = T | null] *)
Definition RowState : Type := option T.

(** [type RowUpdater<T> = ((prev: T | null) => T) | T].  The declared result
    is [T]; nothing enforces it at run time and [setRow] itself tests the
    computed value ([autoSync && next]), so the computed value is taken in
    [T | null].  An updater that respects the declared type always computes
    [Some _]. *)
Inductive RowUpdater : Type :=
| UpdaterFunction (f : RowState -> RowState)
| UpdaterValue (v : RowState).

Record UseSupabaseRowStateOptions : Type := {
  opt_schema : option string;
  opt_primaryKey : option string;
  opt_autoSync : option bool;
  opt_select : option string;
  opt_skip : option bool
}.

(** The response of [.single()]: a row and no error, or an error and no row
    (the client reports zero rows as an error). *)
Inductive PostgrestSingleResponse : Type :=
| ResponseSuccess (row : T)
| ResponseFailure (error : PostgrestError).

Definition response_data (r : PostgrestSingleResponse) : option T :=
  match r with
  | ResponseSuccess row => Some row
  | ResponseFailure _ => None
  end.

Definition response_error (r : PostgrestSingleResponse) : option PostgrestError :=
  match r with
  | ResponseSuccess _ => None
  | ResponseFailure error => Some error
  end.

(** [RealtimePostgresChangesPayload<T>]; [payload.old] is never read. *)
Inductive RealtimePostgresChangesPayload : Type :=
| InsertPayload (new : T)
| UpdatePayload (new : T)
| DeletePayload.

(** The requests the hook sends to the store. *)
Record SelectRequest : Type := {
  select_from : string;
  select_columns : string;
  select_eq_column : string;
  select_eq_value : PKType
}.

Record UpdateRequest : Type := {
  update_from : string;
  update_values : T;
  update_eq_column : string;
  update_eq_value : PKType
}.

(** Everything one hook instance reads and writes. *)
Record World : Type := {
  data : RowState;                      (* useState<RowState<T>>(null) *)
  isLoaded : bool;                      (* useState(false) *)
  channelRef : option RealtimeChannel;  (* useRef<RealtimeChannel | null>(null) *)
  isMounted : bool;                     (* let isMounted, in the fetch effect *)
  supabase : SupabaseClient;            (* const supabase = getSupabaseClient() *)
  logged : list string;                 (* the calls of options.logger, oldest first *)
  selects : list SelectRequest;         (* point reads sent, oldest first *)
  updates : list UpdateRequest;         (* point updates sent, oldest first *)
  updater_runs : nat                    (* how often React runs an updater, see below *)
}.

(** The hook hands React a function, [setData(prev => ...)], and React, not
    the hook, decides how often that function runs: once in a mounted
    component, twice under StrictMode, never once the component is
    unmounted.  [updater_runs] is that number. *)

(** The world of a hook instance before its first render. *)
Definition fresh_world (client : SupabaseClient) : World :=
  {| data := None; isLoaded := false; channelRef := None; isMounted := false;
     supabase := client; logged := []; selects := []; updates := [];
     updater_runs := 1 |}.

(** *** The monad *)

Definition Hook (A : Type) : Type := World -> A * World.

Definition ret {A : Type} (a : A) : Hook A := fun w => (a, w).

Definition bind {A B : Type} (m : Hook A) (k : A -> Hook B) : Hook B :=
  fun w => let (a, w') := m w in k a w'.

Notation "x <- m ;; k" := (bind m (fun x => k))
  (at level 61, m at next level, right associativity).
Notation "m ;; k" := (bind m (fun _ => k))
  (at level 61, right associativity).

Definition exec {A : Type} (m : Hook A) (w : World) : World := snd (m w).
Definition result {A : Type} (m : Hook A) (w : World) : A := fst (m w).

Definition skip_ : Hook unit := ret tt.

(** *** Cells, ref, closure variable, logger, client *)

Definition setData (v : RowState) : Hook unit := fun w =>
  (tt, {| data := v; isLoaded := isLoaded w; channelRef := channelRef w;
          isMounted := isMounted w; supabase := supabase w; logged := logged w;
          selects := selects w; updates := updates w;
          updater_runs := updater_runs w |}).

(** How React runs an updater [n] times: each run gets the same previous
    value and has its own effects; the value of a run, if there was one, is
    what React stores. *)
Fixpoint run_updater (n : nat) (f : RowState -> Hook RowState) (prev : RowState)
    : Hook (option RowState) :=
  match n with
  | O => ret None
  | S k =>
      next <- f prev ;;
      later <- run_updater k f prev ;;
      ret (match later with
           | Some v => Some v
           | None => Some next
           end)
  end.

(** [setData(prev => ...)]: React runs the function on the current value
    as often as it decides and stores the result; when it does not run it,
    nothing is stored. *)
Definition setData_with (f : RowState -> Hook RowState) : Hook unit :=
  fun w =>
    let (stored, w') := run_updater (updater_runs w) f (data w) w in
    match stored with
    | Some next => setData next w'
    | None => (tt, w')
    end.

Definition setIsLoaded (b : bool) : Hook unit := fun w =>
  (tt, {| data := data w; isLoaded := b; channelRef := channelRef w;
          isMounted := isMounted w; supabase := supabase w; logged := logged w;
          selects := selects w; updates := updates w;
          updater_runs := updater_runs w |}).

Definition set_channelRef (r : option RealtimeChannel) : Hook unit := fun w =>
  (tt, {| data := data w; isLoaded := isLoaded w; channelRef := r;
          isMounted := isMounted w; supabase := supabase w; logged := logged w;
          selects := selects w; updates := updates w;
          updater_runs := updater_runs w |}).

Definition set_isMounted (b : bool) : Hook unit := fun w =>
  (tt, {| data := data w; isLoaded := isLoaded w; channelRef := channelRef w;
          isMounted := b; supabase := supabase w; logged := logged w;
          selects := selects w; updates := updates w;
          updater_runs := updater_runs w |}).

Definition set_updater_runs (n : nat) : Hook unit := fun w =>
  (tt, {| data := data w; isLoaded := isLoaded w; channelRef := channelRef w;
          isMounted := isMounted w; supabase := supabase w; logged := logged w;
          selects := selects w; updates := updates w;
          updater_runs := n |}).

Definition set_supabase (c : SupabaseClient) : Hook unit := fun w =>
  (tt, {| data := data w; isLoaded := isLoaded w; channelRef := channelRef w;
          isMounted := isMounted w; supabase := c; logged := logged w;
          selects := selects w; updates := updates w;
          updater_runs := updater_runs w |}).

Definition logger (msg : string) : Hook unit := fun w =>
  (tt, {| data := data w; isLoaded := isLoaded w; channelRef := channelRef w;
          isMounted := isMounted w; supabase := supabase w; logged := logged w ++ [msg];
          selects := selects w; updates := updates w;
          updater_runs := updater_runs w |}).

Definition send_select (q : SelectRequest) : Hook unit := fun w =>
  (tt, {| data := data w; isLoaded := isLoaded w; channelRef := channelRef w;
          isMounted := isMounted w; supabase := supabase w; logged := logged w;
          selects := selects w ++ [q]; updates := updates w;
          updater_runs := updater_runs w |}).

Definition send_update (q : UpdateRequest) : Hook unit := fun w =>
  (tt, {| data := data w; isLoaded := isLoaded w; channelRef := channelRef w;
          isMounted := isMounted w; supabase := supabase w; logged := logged w;
          selects := selects w; updates := updates w ++ [q];
          updater_runs := updater_runs w |}).

Definition get_channelRef : Hook (option RealtimeChannel) := fun w => (channelRef w, w).
Definition get_isMounted : Hook bool := fun w => (isMounted w, w).
Definition get_data : Hook RowState := fun w => (data w, w).
Definition get_isLoaded : Hook bool := fun w => (isLoaded w, w).
Definition get_supabase : Hook SupabaseClient := fun w => (supabase w, w).

(** [supabase.removeChannel(ch)] *)
Definition removeChannel (ch : RealtimeChannel) : Hook unit :=
  c <- get_supabase ;; set_supabase (client_removeChannel ch c).

(** Modelled from the spec: [supabase.channel(name).on(type, filter, cb).subscribe()]
    registers one new channel with the client and returns it. *)
Definition open_channel (name type : string) (flt : ChangesFilter) : Hook RealtimeChannel :=
  c <- get_supabase ;;
  let ch := {| chan_id := next_chan_id c; topic := channel_topic name;
               listen_type := type; changes := flt |} in
  set_supabase {| channels := channels c ++ [ch]; next_chan_id := S (next_chan_id c);
                  subscribe_held := subscribe_held c |} ;;
  ret ch.

(** Whether the channel of this instance is still registered with the
    client. *)
Definition channel_live (w : World) : bool :=
  match channelRef w with
  | Some ch => registered ch (supabase w)
  | None => false
  end.

(** *** One hook instance

    [table], [rowId] and [options] are captured by the closures of the
    hook; [rowId] is present here (the early return is in
    [useSupabaseRowState] below). *)

Section Instance.

Variable table : string.
Variable rowId : PKType.
Variable options : UseSupabaseRowStateOptions.

Definition schema : string := or_default (opt_schema options) "public".
Definition primaryKey : string := or_default (opt_primaryKey options) "id".
Definition autoSync : bool := or_default (opt_autoSync options) true.
Definition select : string := or_default (opt_select options) "*".

Definition channelKey : string :=
  ("realtime-" ++ table ++ "-" ++ String_of rowId)%string.

(** The first effect: warn when a channel with this key already exists.
    The search calls [ch.subscribe()] on the channels it passes; what those
    calls did to the client stays, also when one of them throws.  The result
    is the error the effect throws, if any. *)
Definition check_channel_effect : Hook (option JsError) :=
  c <- get_supabase ;;
  let (held, outcome) :=
    find_subscribing (subscribe_held c) channelKey (getChannels c) (channels c) in
  set_supabase {| channels := held; next_chan_id := next_chan_id c;
                  subscribe_held := subscribe_held c |} ;;
  match outcome with
  | inl e => ret (Some e)
  | inr (Some _) =>
      logger ("Warning: Channel " ++ channelKey
              ++ " already exists. This might cause duplicate subscriptions.")%string ;;
      ret None
  | inr None => ret None
  end.

(** [fetchRow], up to its [await]: the point read is sent. *)
Definition fetchRow_send : Hook unit :=
  send_select {| select_from := table; select_columns := select;
                 select_eq_column := primaryKey; select_eq_value := rowId |}.

(** [fetchRow], from its [await] on, with the two fields of the response. *)
Definition fetchRow_resume (row : option T) (error : option PostgrestError) : Hook unit :=
  mounted <- get_isMounted ;;
  if negb mounted then skip_ else
    (match error with
     | Some e => logger ("Failed to fetch row from " ++ table ++ ": " ++ message e)%string
     | None => skip_
     end) ;;
    setIsLoaded true ;;
    match row with
    | Some typedRow => setData (Some typedRow)
    | None => skip_
    end.

(** The second effect and its cleanup. *)
Definition fetch_effect : Hook unit :=
  set_isMounted true ;; fetchRow_send.

Definition fetch_cleanup : Hook unit :=
  set_isMounted false.

(** The callback given to [.on(...)]. *)
Definition postgres_changes_callback (payload : RealtimePostgresChangesPayload) : Hook unit :=
  match payload with
  | UpdatePayload new | InsertPayload new =>
      setData (Some new) ;; setIsLoaded true
  | DeletePayload =>
      setData None
  end.

(** The third effect and its cleanup.  The cleanup closes over the channel
    the effect has just stored in [channelRef]. *)
Definition subscription_effect : Hook unit :=
  cur <- get_channelRef ;;
  (match cur with
   | Some ch => removeChannel ch
   | None => skip_
   end) ;;
  channel <- open_channel channelKey REALTIME_LISTEN_TYPES_POSTGRES_CHANGES
               {| filter_event := REALTIME_POSTGRES_CHANGES_LISTEN_EVENT_ALL;
                  filter_schema := schema;
                  filter_table := table;
                  filter_filter := (primaryKey ++ "=eq." ++ String_of rowId)%string |} ;;
  set_channelRef (Some channel).

Definition subscription_cleanup : Hook unit :=
  cur <- get_channelRef ;;
  match cur with
  | Some channel => removeChannel channel
  | None => skip_
  end.

(** The function [setRow] hands to [setData], lines 174-192: it computes
    [next], sends the point update and returns [next].  A row is an object,
    so [next] is truthy exactly when it is not null. *)
Definition setRow_updater (updater : RowUpdater) (prev : RowState) : Hook RowState :=
  let next := match updater with
              | UpdaterFunction f => f prev
              | UpdaterValue v => v
              end in
  (if autoSync then
     match next with
     | Some values =>
         send_update {| update_from := table; update_values := values;
                        update_eq_column := primaryKey; update_eq_value := rowId |}
     | None => skip_
     end
   else skip_) ;;
  ret next.

(** [setRow] *)
Definition setRow (updater : RowUpdater) : Hook unit :=
  setData_with (setRow_updater updater).

(** The [.then] of the point update, with the [error] field of its
    response. *)
Definition update_then (error : option PostgrestError) : Hook unit :=
  match error with
  | Some e => logger ("Auto-sync failed: " ++ message e)%string
  | None => skip_
  end.

Definition unsubscribe : Hook unit :=
  cur <- get_channelRef ;;
  match cur with
  | Some ch => removeChannel ch
  | None => skip_
  end.

(** The effects of the first render, in the order of their declaration:
    when one throws, the ones after it do not run, and the error is the
    result.  And the cleanups at unmount. *)
Definition mount_effects : Hook (option JsError) :=
  thrown <- check_channel_effect ;;
  match thrown with
  | Some e => ret (Some e)
  | None => fetch_effect ;; subscription_effect ;; ret None
  end.

Definition unmount : Hook unit :=
  fetch_cleanup ;; subscription_cleanup.

(** React unmounting the component: the cleanups run, and from then on
    React runs no updater of this instance. *)
Definition react_unmount : Hook unit :=
  unmount ;; set_updater_runs 0.

(** Modelled from the spec: the client hands a change event to the callback
    of a channel only while the channel is registered (section 4.1, the
    subscription stops delivering after release). *)
Definition deliver (payload : RealtimePostgresChangesPayload) : Hook unit :=
  fun w => if channel_live w then postgres_changes_callback payload w else (tt, w).

(** *** The life of an instance as a sequence of events

    [SetRowCalled] is a call of the setter together with React working off
    the updater the call has queued; [Unmounted] is React unmounting the
    component. *)

Inductive Event : Type :=
| ReadResolved (r : PostgrestSingleResponse)
| ChangeDelivered (payload : RealtimePostgresChangesPayload)
| SetRowCalled (updater : RowUpdater)
| UnsubscribeCalled
| Unmounted
| UpdateResolved (error : option PostgrestError).

Definition step (e : Event) : Hook unit :=
  match e with
  | ReadResolved r => fetchRow_resume (response_data r) (response_error r)
  | ChangeDelivered payload => deliver payload
  | SetRowCalled updater => setRow updater
  | UnsubscribeCalled => unsubscribe
  | Unmounted => react_unmount
  | UpdateResolved error => update_then error
  end.

Definition run (es : list Event) (w : World) : World :=
  fold_left (fun w e => exec (step e) w) es w.

End Instance.

(** *** The hook *)

Record UseSupabaseRowStateReturn : Type := {
  ret_data : RowState;
  ret_setRow : RowUpdater -> Hook unit;
  ret_isLoaded : bool;
  ret_unsubscribe : Hook unit
}.

Definition createNoopSetter : RowUpdater -> Hook unit := fun _ => skip_.

Definition invalid_rowId (table : string) : string :=
  ("useSupabaseRowState: Invalid rowId for table " ++ table)%string.

(** One render.  The effects are not part of the render; see [attach]. *)
Definition useSupabaseRowState (table : string) (rowId : Nullable PKType)
    (options : UseSupabaseRowStateOptions) : Hook UseSupabaseRowStateReturn :=
  let skip := or_default (opt_skip options) false in
  match rowId with
  | js_undefined | js_null =>
      (if negb skip then logger (invalid_rowId table) else skip_) ;;
      ret {| ret_data := None; ret_setRow := createNoopSetter;
             ret_isLoaded := false; ret_unsubscribe := skip_ |}
  | js_value id =>
      d <- get_data ;;
      l <- get_isLoaded ;;
      ret {| ret_data := d; ret_setRow := setRow table id options;
             ret_isLoaded := l; ret_unsubscribe := unsubscribe |}
  end.

(** The first render of an instance followed by its effects.  The render
    has returned when the effects run: an error thrown by an effect goes to
    React, which unmounts the component, and not to the caller of the
    hook. *)
Definition attach (table : string) (rowId : Nullable PKType)
    (options : UseSupabaseRowStateOptions) : Hook UseSupabaseRowStateReturn :=
  h <- useSupabaseRowState table rowId options ;;
  (match rowId with
   | js_value id =>
       thrown <- mount_effects table id options ;;
       match thrown with
       | Some _ => set_updater_runs 0
       | None => skip_
       end
   | _ => skip_
   end) ;;
  ret h.

(** Line 51, [const supabase = getSupabaseClient()], runs when the module is
    evaluated, before any call of the hook; a throw there reaches whoever
    loads the module and no instance exists.  The hook itself never calls
    [getSupabaseClient]. *)
Definition module_supabase (reg : Init.Registry) : JsError + SupabaseClient :=
  Init.getSupabaseClient reg.

End UseRowState.

Arguments RowState T : clear implicits.
Arguments UpdaterFunction {T} f.
Arguments UpdaterValue {T} v.
Arguments ResponseSuccess {T} row.
Arguments ResponseFailure {T} error.
Arguments response_data {T} r.
Arguments response_error {T} r.
Arguments InsertPayload {T} new.
Arguments UpdatePayload {T} new.
Arguments DeletePayload {T}.
Arguments update_from {T PKType} u.
Arguments update_values {T PKType} u.
Arguments update_eq_column {T PKType} u.
Arguments update_eq_value {T PKType} u.
Arguments data {T PKType} w.
Arguments isLoaded {T PKType} w.
Arguments channelRef {T PKType} w.
Arguments isMounted {T PKType} w.
Arguments supabase {T PKType} w.
Arguments logged {T PKType} w.
Arguments selects {T PKType} w.
Arguments updates {T PKType} w.
Arguments fresh_world {T PKType} client.
Arguments ret {T PKType A} a w.
Arguments bind {T PKType A B} m k w.
Arguments exec {T PKType A} m w.
Arguments result {T PKType A} m w.
Arguments skip_ {T PKType} w.
Arguments setData {T PKType} v w.
Arguments setData_with {T PKType} f w.
Arguments run_updater {T PKType} n f prev w.
Arguments set_updater_runs {T PKType} n w.
Arguments setIsLoaded {T PKType} b w.
Arguments logger {T PKType} msg w.
Arguments send_update {T PKType} q w.
Arguments removeChannel {T PKType} ch w.
Arguments channel_live {T PKType} w.
Arguments fetchRow_resume {T PKType} table row error w.
Arguments postgres_changes_callback {T PKType} payload w.
Arguments setRow {T PKType} table rowId options updater w.
Arguments setRow_updater {T PKType} table rowId options updater prev w.
Arguments update_then {T PKType} error w.
Arguments unsubscribe {T PKType} w.
Arguments unmount {T PKType} w.
Arguments mount_effects {T PKType} String_of channel_topic table rowId options w.
Arguments deliver {T PKType} payload w.
Arguments ReadResolved {T} r.
Arguments ChangeDelivered {T} payload.
Arguments SetRowCalled {T} updater.
Arguments UnsubscribeCalled {T}.
Arguments Unmounted {T}.
Arguments UpdateResolved {T} error.
Arguments step {T PKType} table rowId options e w.
Arguments run {T PKType} table rowId options es w.
Arguments ret_data {T PKType} u.
Arguments ret_setRow {T PKType} u updater w.
Arguments ret_isLoaded {T PKType} u.
Arguments ret_unsubscribe {T PKType} u w.
Arguments createNoopSetter {T PKType} updater w.
Arguments useSupabaseRowState {T PKType} table rowId options w.
Arguments attach {T PKType} String_of channel_topic table rowId options w.
Arguments updater_runs {T PKType} w.
Arguments react_unmount {T PKType} w.
Arguments select_from {PKType} s.
Arguments select_columns {PKType} s.
Arguments select_eq_column {PKType} s.
Arguments select_eq_value {PKType} s.
Arguments channelKey {PKType} String_of table rowId.
Arguments check_channel_effect {T PKType} String_of table rowId w.
Arguments fetch_effect {T PKType} table rowId options w.
Arguments fetch_cleanup {T PKType} w.
Arguments subscription_effect {T PKType} String_of channel_topic table rowId options w.
Arguments subscription_cleanup {T PKType} w.

(** ** A concrete instance: table "profiles", row "u1" *)

Module Scenario.

Record Profile : Type := { id : string; name : string }.

Definition ann : Profile := {| id := "u1"; name := "Ann" |}.
Definition ann2 : Profile := {| id := "u1"; name := "Ann2" |}.
Definition annX : Profile := {| id := "u1"; name := "X" |}.

(** [prev => ({...prev, name: "X"})] *)
Definition rename (prev : RowState Profile) : RowState Profile :=
  match prev with
  | Some p => Some {| id := id p; name := "X" |}
  | None => Some {| id := ""; name := "X" |}
  end.

Definition String_of (s : string) : string := s.
Definition channel_topic (name : string) : string := ("realtime:" ++ name)%string.

(** A client that lets a channel be subscribed once: [subscribe()] on a
    channel it holds throws. *)
Definition subscribed_already : JsError :=
  Error "tried to subscribe multiple times. 'subscribe' can only be called a single time per channel instance".

Definition subscribe_once (ch : RealtimeChannel) (held : list RealtimeChannel)
    : JsError + list RealtimeChannel :=
  inl subscribed_already.

(** A client on which [subscribe()] may be repeated. *)
Definition subscribe_again (ch : RealtimeChannel) (held : list RealtimeChannel)
    : JsError + list RealtimeChannel :=
  inr held.

Definition client : SupabaseClient :=
  {| channels := []; next_chan_id := 0; subscribe_held := subscribe_once |}.

Definition defaults : UseSupabaseRowStateOptions :=
  {| opt_schema := None; opt_primaryKey := None; opt_autoSync := None;
     opt_select := None; opt_skip := None |}.

Definition silent : UseSupabaseRowStateOptions :=
  {| opt_schema := None; opt_primaryKey := None; opt_autoSync := None;
     opt_select := None; opt_skip := Some true |}.

Definition not_found : PostgrestError :=
  {| message := "JSON object requested, multiple (or no) rows returned" |}.

(** The instance right after its first render and effects. *)
Definition mounted : World Profile string :=
  exec (attach String_of channel_topic "profiles" (js_value "u1") defaults)
       (fresh_world client).

Definition handle : UseSupabaseRowStateReturn Profile string :=
  result (attach String_of channel_topic "profiles" (js_value "u1") defaults)
         (fresh_world client).

Definition go : list (Event Profile) -> World Profile string -> World Profile string :=
  run "profiles" "u1" defaults.

(** A client that already holds a registration of someone else, and the
    instance attached to it. *)
Definition foreign : RealtimeChannel :=
  {| chan_id := 0; topic := "realtime:presence-room";
     listen_type := "presence";
     changes := {| filter_event := "*"; filter_schema := "public";
                   filter_table := "rooms"; filter_filter := "" |} |}.

Definition busy_client : SupabaseClient :=
  {| channels := [foreign]; next_chan_id := 1; subscribe_held := subscribe_again |}.

Definition mounted_busy : World Profile string :=
  exec (attach String_of channel_topic "profiles" (js_value "u1") defaults)
       (fresh_world busy_client).

Definition local_only : UseSupabaseRowStateOptions :=
  {| opt_schema := None; opt_primaryKey := None; opt_autoSync := Some false;
     opt_select := None; opt_skip := None |}.

Definition private_schema : UseSupabaseRowStateOptions :=
  {| opt_schema := Some "private"; opt_primaryKey := None; opt_autoSync := None;
     opt_select := None; opt_skip := None |}.

(** The mounted instance in a StrictMode tree, where React runs every
    updater twice (the second run of the effects that React adds in such a
    tree since version 18 is left out). *)
Definition mounted_strict : World Profile string :=
  exec (set_updater_runs 2) mounted.

End Scenario.

(** ** Vocabulary of the statements *)

Section Vocabulary.

Variables T PKType : Type.

(** The value [setRow] computes from its argument and the previous value. *)
Definition computed (updater : RowUpdater T) (prev : RowState T) : RowState T :=
  match updater with
  | UpdaterFunction f => f prev
  | UpdaterValue v => v
  end.

(** The point update [setRow] sends for [next], if any. *)
Definition persist_of (table : string) (rowId : PKType)
    (options : UseSupabaseRowStateOptions) (next : RowState T)
    : list (UpdateRequest T PKType) :=
  match next with
  | Some values =>
      if autoSync options
      then [ {| update_from := table; update_values := values;
                update_eq_column := primaryKey options; update_eq_value := rowId |} ]
      else []
  | None => []
  end.

(** Whether an event, arriving in world [w], writes [true] to the loaded
    flag. *)
Definition sets_loaded (e : Event T) (w : World T PKType) : bool :=
  match e with
  | ReadResolved _ => isMounted w
  | ChangeDelivered (InsertPayload _) | ChangeDelivered (UpdatePayload _) => channel_live w
  | _ => false
  end.

(** How often the loaded flag goes from [false] to [true], and from [true]
    to [false], along a sequence of events. *)
Fixpoint loaded_rises (table : string) (rowId : PKType)
    (options : UseSupabaseRowStateOptions) (es : list (Event T)) (w : World T PKType) : nat :=
  match es with
  | [] => 0
  | e :: es' =>
      let w' := exec (step table rowId options e) w in
      (if negb (isLoaded w) && isLoaded w' then 1 else 0)
      + loaded_rises table rowId options es' w'
  end.

Fixpoint loaded_falls (table : string) (rowId : PKType)
    (options : UseSupabaseRowStateOptions) (es : list (Event T)) (w : World T PKType) : nat :=
  match es with
  | [] => 0
  | e :: es' =>
      let w' := exec (step table rowId options e) w in
      (if isLoaded w && negb (isLoaded w') then 1 else 0)
      + loaded_falls table rowId options es' w'
  end.

(** A sequence of [setRow] calls, each followed by the outcomes of point
    updates that resolve before the next call. *)
Definition calls_with_outcomes
    (cs : list (RowUpdater T * list (option PostgrestError))) : list (Event T) :=
  flat_map (fun c => SetRowCalled (fst c) :: map UpdateResolved (snd c)) cs.

(** The value a change event leaves, and whether the event is an insert or
    an update. *)
Definition payload_value (payload : RealtimePostgresChangesPayload T) : RowState T :=
  match payload with
  | InsertPayload new | UpdatePayload new => Some new
  | DeletePayload => None
  end.

Definition is_upsert (payload : RealtimePostgresChangesPayload T) : bool :=
  match payload with
  | InsertPayload _ | UpdatePayload _ => true
  | DeletePayload => false
  end.

(** The events that come from the store or from a cleanup, as opposed to the
    calls of [setRow] and the resolutions of its point updates. *)
Definition store_or_cleanup (e : Event T) : bool :=
  match e with
  | SetRowCalled _ | UpdateResolved _ => false
  | _ => true
  end.

(** The events that report a failure: a failed read, a failed point
    update. *)
Definition reports_failure (e : Event T) : bool :=
  match e with
  | ReadResolved (ResponseFailure _) => true
  | UpdateResolved (Some _) => true
  | _ => false
  end.

Definition is_setRow (e : Event T) : bool :=
  match e with
  | SetRowCalled _ => true
  | _ => false
  end.

(** A point update on the row of the instance. *)
Definition targets (table : string) (rowId : PKType)
    (options : UseSupabaseRowStateOptions) (u : UpdateRequest T PKType) : Prop :=
  update_from u = table
  /\ update_eq_column u = primaryKey options
  /\ update_eq_value u = rowId.

(** The client after the effect has released the channel the instance
    held, if it held one. *)
Definition released (c : SupabaseClient) (held : option RealtimeChannel) : SupabaseClient :=
  match held with
  | Some old => client_removeChannel old c
  | None => c
  end.

(** The warning of the first effect. *)
Definition duplicate_warning (key : string) : string :=
  ("Warning: Channel " ++ key
   ++ " already exists. This might cause duplicate subscriptions.")%string.

(** The search of the first effect on a client: the channels held
    afterwards, and the error thrown or the channel found. *)
Definition duplicate_check (key : string) (c : SupabaseClient)
    : list RealtimeChannel * (JsError + option RealtimeChannel) :=
  find_subscribing (subscribe_held c) key (getChannels c) (channels c).

(** Channels are objects and [chan_id] stands for their identity: the
    client numbers them as it creates them.  In a world that arises from
    the client, every channel it holds, and the one the instance refers to,
    has a number the client has already given out. *)
Definition handles_issued (w : World T PKType) : bool :=
  forallb (fun ch => Nat.ltb (chan_id ch) (next_chan_id (supabase w)))
          (channels (supabase w))
  && match channelRef w with
     | Some ch => Nat.ltb (chan_id ch) (next_chan_id (supabase w))
     | None => true
     end.

End Vocabulary.

Arguments computed {T} updater prev.
Arguments persist_of {T PKType} table rowId options next.
Arguments sets_loaded {T PKType} e w.
Arguments loaded_rises {T PKType} table rowId options es w.
Arguments loaded_falls {T PKType} table rowId options es w.
Arguments calls_with_outcomes {T} cs.
Arguments payload_value {T} payload.
Arguments is_upsert {T} payload.
Arguments store_or_cleanup {T} e.
Arguments reports_failure {T} e.
Arguments is_setRow {T} e.
Arguments targets {T PKType} table rowId options u.
Arguments handles_issued {T PKType} w.

(** ** Properties *)

Section Properties.

Variables T PKType : Type.
Variable String_of : PKType -> string.
Variable channel_topic : string -> string.
Variable table : string.
Variable rowId : PKType.
Variable options : UseSupabaseRowStateOptions.

Implicit Types (w : World T PKType) (e : Event T) (es : list (Event T)).
Implicit Types (payload : RealtimePostgresChangesPayload T).
Implicit Types (r : PostgrestSingleResponse T) (updater : RowUpdater T).

(** *** The client *)

Lemma filter_twice {A : Type} (p : A -> bool) (l : list A) :
  filter p (filter p l) = filter p l.
Proof.
  induction l as [|a l IH]; simpl; [reflexivity|].
  destruct (p a) eqn:Hp; simpl; [rewrite Hp, IH|]; auto.
Qed.

Lemma client_removeChannel_twice ch c :
  client_removeChannel ch (client_removeChannel ch c) = client_removeChannel ch c.
Proof.
  unfold client_removeChannel; simpl. now rewrite filter_twice.
Qed.

Lemma registered_client_removeChannel ch c :
  registered ch (client_removeChannel ch c) = false.
Proof.
  unfold registered, client_removeChannel; simpl.
  induction (channels c) as [|a l IH]; simpl; [reflexivity|].
  destruct (same_channel a ch) eqn:Hs; simpl; [|rewrite Hs]; auto.
Qed.

(** *** Events one at a time *)

Lemma run_cons e es w :
  run table rowId options (e :: es) w
  = run table rowId options es (exec (step table rowId options e) w).
Proof. reflexivity. Qed.

Lemma run_app es1 es2 w :
  run table rowId options (es1 ++ es2) w
  = run table rowId options es2 (run table rowId options es1 w).
Proof. unfold run. apply fold_left_app. Qed.

Lemma deliver_live payload w :
  channel_live w = true ->
  exec (deliver payload) w = exec (postgres_changes_callback payload) w.
Proof. intros H. unfold exec, deliver. now rewrite H. Qed.

Lemma deliver_released payload w :
  channel_live w = false -> exec (deliver payload) w = w.
Proof. intros H. unfold exec, deliver. now rewrite H. Qed.

Lemma channel_live_unsubscribe w :
  channel_live (exec unsubscribe w) = false.
Proof.
  destruct w as [d l [ch|] m c lg ss us]; cbn; [|reflexivity].
  apply registered_client_removeChannel.
Qed.

Lemma unsubscribe_twice w :
  exec unsubscribe (exec unsubscribe w) = exec unsubscribe w.
Proof.
  destruct w as [d l [ch|] m c lg ss us]; cbn; [|reflexivity].
  now rewrite client_removeChannel_twice.
Qed.

Lemma unsubscribe_keeps w :
  data (exec unsubscribe w) = data w /\
  isLoaded (exec unsubscribe w) = isLoaded w /\
  isMounted (exec unsubscribe w) = isMounted w /\
  logged (exec unsubscribe w) = logged w /\
  updates (exec unsubscribe w) = updates w.
Proof. destruct w as [d l [ch|] m c lg ss us]; cbn; auto. Qed.

Lemma callback_spec payload w :
  let w' := exec (postgres_changes_callback payload) w in
  match payload with
  | InsertPayload new | UpdatePayload new => data w' = Some new /\ isLoaded w' = true
  | DeletePayload => data w' = None /\ isLoaded w' = isLoaded w
  end
  /\ isMounted w' = isMounted w /\ channel_live w' = channel_live w
  /\ logged w' = logged w /\ updates w' = updates w.
Proof. destruct payload; cbn; auto. Qed.

Lemma fetchRow_resume_mounted row error w :
  isMounted w = true ->
  let w' := exec (fetchRow_resume table row error) w in
  isLoaded w' = true
  /\ data w' = match row with Some typedRow => Some typedRow | None => data w end
  /\ logged w' = logged w ++ match error with
                             | Some err => [("Failed to fetch row from " ++ table ++ ": "
                                             ++ message err)%string]
                             | None => []
                             end.
Proof.
  intros Hm. unfold exec, fetchRow_resume, bind, get_isMounted. rewrite Hm. simpl.
  destruct error, row; cbn; rewrite ?app_nil_r; auto.
Qed.

Lemma fetchRow_resume_unmounted row error w :
  isMounted w = false -> exec (fetchRow_resume table row error) w = w.
Proof.
  intros Hm. unfold exec, fetchRow_resume, bind, get_isMounted. rewrite Hm. reflexivity.
Qed.

Lemma run_updater_S n (f : RowState T -> Hook T PKType (RowState T)) prev w :
  run_updater (S n) f prev w
  = (let (next, w') := f prev w in
     let (later, w'') := run_updater n f prev w' in
     (match later with Some v => Some v | None => Some next end, w'')).
Proof. reflexivity. Qed.

Lemma run_updater_setRow updater prev n w :
  let next := computed updater prev in
  let r := run_updater n (setRow_updater table rowId options updater) prev w in
  fst r = match n with O => None | S _ => Some next end
  /\ updates (snd r)
     = updates w ++ concat (repeat (persist_of table rowId options next) n)
  /\ data (snd r) = data w /\ isLoaded (snd r) = isLoaded w
  /\ channelRef (snd r) = channelRef w /\ isMounted (snd r) = isMounted w
  /\ supabase (snd r) = supabase w /\ logged (snd r) = logged w
  /\ selects (snd r) = selects w /\ updater_runs (snd r) = updater_runs w.
Proof.
  cbv zeta. revert w. induction n as [|n IH]; intros w.
  - simpl. rewrite app_nil_r. auto 10.
  - rewrite run_updater_S.
    assert (Hf : exists w',
               setRow_updater table rowId options updater prev w
               = (computed updater prev, w')
               /\ updates w' = updates w
                               ++ persist_of table rowId options (computed updater prev)
               /\ data w' = data w /\ isLoaded w' = isLoaded w
               /\ channelRef w' = channelRef w /\ isMounted w' = isMounted w
               /\ supabase w' = supabase w /\ logged w' = logged w
               /\ selects w' = selects w /\ updater_runs w' = updater_runs w).
    { unfold setRow_updater, persist_of, bind.
      destruct updater as [f|v]; simpl;
        [destruct (f prev)|destruct v]; destruct (autoSync options);
        eexists; (split; [reflexivity|]); cbn; rewrite ?app_nil_r; auto 10. }
    destruct Hf as (w' & -> & Hu & Hd & Hl & Hc & Hm & Hs & Hlg & Hss & Hn).
    destruct (IH w') as (Hr & Hu' & Hd' & Hl' & Hc' & Hm' & Hs' & Hlg' & Hss' & Hn').
    destruct (run_updater n (setRow_updater table rowId options updater) prev w')
      as [later w''] eqn:E.
    simpl in *.
    split; [rewrite Hr; destruct n; reflexivity|].
    rewrite Hu', Hu, <- app_assoc.
    repeat split; congruence.
Qed.

Lemma setRow_spec updater w :
  let next := computed updater (data w) in
  let w1 := exec (setRow table rowId options updater) w in
  data w1 = match updater_runs w with O => data w | S _ => next end
  /\ updates w1
     = updates w ++ concat (repeat (persist_of table rowId options next) (updater_runs w))
  /\ logged w1 = logged w /\ isLoaded w1 = isLoaded w
  /\ isMounted w1 = isMounted w /\ channel_live w1 = channel_live w
  /\ selects w1 = selects w
  /\ channelRef w1 = channelRef w /\ supabase w1 = supabase w
  /\ updater_runs w1 = updater_runs w.
Proof.
  cbv zeta. unfold exec, setRow, setData_with.
  destruct (run_updater_setRow updater (data w) (updater_runs w) w)
    as (Hr & Hu & Hd & Hl & Hc & Hm & Hs & Hlg & Hss & Hn).
  destruct (run_updater (updater_runs w) (setRow_updater table rowId options updater)
              (data w) w) as [stored w'] eqn:E.
  simpl in *. subst stored.
  unfold channel_live.
  destruct (updater_runs w); simpl; rewrite ?Hc, ?Hs; auto 12.
Qed.

(** A call of [setRow] that React lets run once. *)
Lemma setRow_once updater w :
  updater_runs w = 1 ->
  let next := computed updater (data w) in
  let w1 := exec (setRow table rowId options updater) w in
  data w1 = next
  /\ updates w1 = updates w ++ persist_of table rowId options next.
Proof.
  intros Hn. cbv zeta.
  destruct (setRow_spec updater w) as (Hd & Hu & _).
  rewrite Hn in Hd, Hu. simpl in Hu. rewrite app_nil_r in Hu. auto.
Qed.

Lemma update_then_spec error w :
  let w1 := exec (update_then error) w in
  data w1 = data w /\ updates w1 = updates w /\ isLoaded w1 = isLoaded w
  /\ selects w1 = selects w
  /\ logged w1 = logged w ++ match error with
                             | Some err => [("Auto-sync failed: " ++ message err)%string]
                             | None => []
                             end.
Proof. destruct error; cbn; rewrite ?app_nil_r; auto. Qed.

Lemma update_then_runs error w :
  updater_runs (exec (update_then error) w) = updater_runs w.
Proof. destruct error; reflexivity. Qed.

Lemma update_then_all_keep_data (errors : list (option PostgrestError)) w :
  data (run table rowId options (map UpdateResolved errors) w) = data w
  /\ updater_runs (run table rowId options (map UpdateResolved errors) w)
     = updater_runs w.
Proof.
  revert w. induction errors as [|error errors IH]; intros w; [split; reflexivity|].
  simpl map. rewrite run_cons. destruct (IH (exec (step table rowId options
    (UpdateResolved error)) w)) as (-> & ->).
  simpl step. rewrite update_then_runs. split; [apply update_then_spec|reflexivity].
Qed.

Lemma setRow_sequence (cs : list (RowUpdater T * list (option PostgrestError))) w :
  0 < updater_runs w ->
  data (run table rowId options (calls_with_outcomes cs) w)
  = fold_left (fun prev c => computed (fst c) prev) cs (data w).
Proof.
  revert w. induction cs as [|[updater errors] cs IH]; intros w Hn; [reflexivity|].
  unfold calls_with_outcomes in *. simpl flat_map.
  rewrite run_cons, run_app. simpl step.
  destruct (setRow_spec updater w) as (Hd & _ & _ & _ & _ & _ & _ & _ & _ & Hr).
  destruct (update_then_all_keep_data errors (exec (setRow table rowId options updater) w))
    as (Hd' & Hr').
  rewrite IH by (rewrite Hr', Hr; exact Hn).
  rewrite Hd', Hd. simpl. destruct (updater_runs w); [inversion Hn|reflexivity].
Qed.

Lemma step_isLoaded e w :
  isLoaded (exec (step table rowId options e) w) = isLoaded w || sets_loaded e w.
Proof.
  destruct e as [r|payload|updater| | |error]; simpl step; simpl sets_loaded.
  - destruct (isMounted w) eqn:Hm.
    + destruct (fetchRow_resume_mounted (response_data r) (response_error r) w Hm)
        as (-> & _). now rewrite orb_true_r.
    + rewrite fetchRow_resume_unmounted by assumption. now rewrite orb_false_r.
  - destruct (channel_live w) eqn:Hl.
    + rewrite deliver_live by assumption.
      destruct payload; cbn; rewrite ?orb_true_r, ?orb_false_r; reflexivity.
    + rewrite deliver_released by assumption.
      destruct payload; now rewrite orb_false_r.
  - rewrite orb_false_r. apply setRow_spec.
  - rewrite orb_false_r. apply unsubscribe_keeps.
  - rewrite orb_false_r. destruct w as [d l [ch|] m c lg ss us]; reflexivity.
  - rewrite orb_false_r. apply update_then_spec.
Qed.

Lemma run_keeps_loaded es w :
  isLoaded w = true -> isLoaded (run table rowId options es w) = true.
Proof.
  revert w. induction es as [|e es IH]; intros w Hw; [exact Hw|].
  rewrite run_cons. apply IH. rewrite step_isLoaded, Hw. reflexivity.
Qed.

Lemma loaded_falls_zero es w : loaded_falls table rowId options es w = 0.
Proof.
  revert w. induction es as [|e es IH]; intros w; [reflexivity|].
  simpl. rewrite IH, step_isLoaded.
  destruct (isLoaded w); reflexivity.
Qed.

Lemma loaded_rises_loaded es w :
  isLoaded w = true -> loaded_rises table rowId options es w = 0.
Proof.
  revert w. induction es as [|e es IH]; intros w Hw; [reflexivity|].
  simpl. rewrite IH by (rewrite step_isLoaded, Hw; reflexivity).
  rewrite Hw. reflexivity.
Qed.

Lemma loaded_rises_once es w : loaded_rises table rowId options es w <= 1.
Proof.
  revert w. induction es as [|e es IH]; intros w; simpl; [lia|].
  destruct (isLoaded w) eqn:Hw; simpl.
  - apply IH.
  - destruct (isLoaded (exec (step table rowId options e) w)) eqn:Hw'.
    + rewrite loaded_rises_loaded by assumption. lia.
    + apply IH.
Qed.

(** *** The registry *)

Lemma after_calls_latest (clients : list SupabaseClient) :
  Init.after_calls clients
  = match rev clients with
    | [] => None
    | client :: _ => Some client
    end.
Proof.
  induction clients as [|client clients _] using rev_ind; [reflexivity|].
  unfold Init.after_calls. rewrite fold_left_app, rev_unit. reflexivity.
Qed.

(** *** The first render *)

Lemma attach_present client :
  let w0 : World T PKType := fresh_world client in
  let h := result (attach String_of channel_topic table (js_value rowId) options) w0 in
  let w := exec (attach String_of channel_topic table (js_value rowId) options) w0 in
  ret_data h = None /\ ret_isLoaded h = false
  /\ data w = None /\ isLoaded w = false /\ updates w = [].
Proof.
  unfold result, exec, attach, useSupabaseRowState, mount_effects,
    check_channel_effect, bind, get_data, get_isLoaded, get_supabase; simpl.
  destruct (find_subscribing _ _ _ _) as [held [e|[found|]]]; cbn; auto 10.
Qed.

Lemma deliver_new w new payload :
  channel_live w = true ->
  payload = InsertPayload new \/ payload = UpdatePayload new ->
  let w1 := exec (deliver payload) w in
  data w1 = Some new /\ isLoaded w1 = true /\ isMounted w1 = isMounted w.
Proof.
  intros Hl Hp w1. subst w1. rewrite deliver_live by assumption.
  destruct Hp as [-> | ->];
    match goal with
    | |- context [postgres_changes_callback ?p] =>
        destruct (callback_spec p w) as ((Hd & Hl') & Hm & _)
    end; auto.
Qed.

(** *** The claims *)

(** C1, as amended.  When an insert or update event is delivered before the
    initial read resolves, the event sets the value to its new row; when the
    read then resolves, the loaded flag is true, and the value is the row of
    the read if the read returned one, and still the new row of the event if
    the read failed. *)
Theorem read_after_change_event w new payload r :
  isMounted w = true ->
  channel_live w = true ->
  payload = InsertPayload new \/ payload = UpdatePayload new ->
  let w1 := exec (step table rowId options (ChangeDelivered payload)) w in
  let w2 := exec (step table rowId options (ReadResolved r)) w1 in
  data w1 = Some new
  /\ isLoaded w2 = true
  /\ data w2 = match r with
               | ResponseSuccess row => Some row
               | ResponseFailure _ => Some new
               end.
Proof.
  intros Hm Hl Hp. cbv zeta. simpl step.
  destruct (deliver_new w new payload Hl Hp) as (Hd & _ & Hm1).
  rewrite Hm in Hm1.
  destruct (fetchRow_resume_mounted (response_data r) (response_error r) _ Hm1)
    as (Hl2 & Hd2 & _).
  repeat split; [assumption..|].
  rewrite Hd2, Hd. destruct r; reflexivity.
Qed.

(** C2, as amended.  After the returned [unsubscribe] is called, the client
    delivers no change event to the instance any more, so no delivery
    changes anything; a second call changes nothing; the call leaves the
    value, the loaded flag and the [isMounted] guard as they were, so a read
    that resolves afterwards is applied exactly when the instance is still
    mounted; once the instance is unmounted, a late read changes nothing. *)
Theorem after_unsubscribe w :
  let w1 := exec (step table rowId options UnsubscribeCalled) w in
  (forall payloads,
      run table rowId options (map ChangeDelivered payloads) w1 = w1)
  /\ exec (step table rowId options UnsubscribeCalled) w1 = w1
  /\ data w1 = data w /\ isLoaded w1 = isLoaded w /\ isMounted w1 = isMounted w
  /\ (forall r,
        isLoaded (exec (step table rowId options (ReadResolved r)) w1)
        = isLoaded w || isMounted w)
  /\ (forall r,
        let w2 := exec (step table rowId options Unmounted) w1 in
        exec (step table rowId options (ReadResolved r)) w2 = w2).
Proof.
  cbv zeta.
  change (exec (step table rowId options UnsubscribeCalled) w) with (exec unsubscribe w).
  destruct (unsubscribe_keeps w) as (Hd & Hl & Hm & _).
  repeat split; try assumption.
  - induction payloads as [|payload payloads IH]; [reflexivity|].
    simpl map. rewrite run_cons. simpl step.
    rewrite deliver_released by apply channel_live_unsubscribe. exact IH.
  - apply unsubscribe_twice.
  - intros r. rewrite step_isLoaded. simpl. now rewrite Hl, Hm.
  - intros r. simpl step. apply fetchRow_resume_unmounted.
    destruct w as [d l [ch|] m c lg ss us]; reflexivity.
Qed.


(** C4.  When the initial read resolves while the instance is mounted, the
    loaded flag is set to true, on success and on failure alike.  When the
    read failed (an error, which is also how the client reports zero rows),
    one diagnostic is logged and the value is left as it was: a value that
    the change feed has delivered before is still there afterwards. *)
Theorem read_completion_sets_loaded w r :
  isMounted w = true ->
  let w1 := exec (step table rowId options (ReadResolved r)) w in
  isLoaded w1 = true
  /\ match r with
     | ResponseFailure error =>
         data w1 = data w
         /\ logged w1
            = logged w ++ [("Failed to fetch row from " ++ table ++ ": "
                            ++ message error)%string]
     | ResponseSuccess row =>
         data w1 = Some row /\ logged w1 = logged w
     end
  /\ (forall new error,
         channel_live w = true ->
         data (run table rowId options
                 [ChangeDelivered (UpdatePayload new);
                  ReadResolved (ResponseFailure error)] w) = Some new
         /\ data (run table rowId options
                 [ChangeDelivered (InsertPayload new);
                  ReadResolved (ResponseFailure error)] w) = Some new).
Proof.
  intros Hm w1. subst w1. simpl step.
  destruct (fetchRow_resume_mounted (response_data r) (response_error r) w Hm)
    as (Hl & Hd & Hlog).
  split; [assumption|]. split.
  - destruct r; simpl in *; rewrite ?app_nil_r in Hlog; auto.
  - intros new error Hlive.
    split; rewrite !run_cons; simpl run; simpl step.
    + destruct (deliver_new w new (UpdatePayload new) Hlive) as (Hd1 & _ & Hm1); auto.
      rewrite Hm in Hm1.
      destruct (fetchRow_resume_mounted None (Some error) _ Hm1) as (_ & -> & _).
      exact Hd1.
    + destruct (deliver_new w new (InsertPayload new) Hlive) as (Hd1 & _ & Hm1); auto.
      rewrite Hm in Hm1.
      destruct (fetchRow_resume_mounted None (Some error) _ Hm1) as (_ & -> & _).
      exact Hd1.
Qed.

(** C5.  A change event delivered to an instance whose channel is
    registered: an insert or an update sets the value to the new row and the
    loaded flag to true; a delete sets the value to null and leaves the
    loaded flag as it was. *)
Theorem change_event_applied w payload :
  channel_live w = true ->
  let w1 := exec (step table rowId options (ChangeDelivered payload)) w in
  match payload with
  | InsertPayload new | UpdatePayload new =>
      data w1 = Some new /\ isLoaded w1 = true
  | DeletePayload =>
      data w1 = None /\ isLoaded w1 = isLoaded w
  end.
Proof.
  intros Hl. cbv zeta. simpl step. rewrite deliver_live by assumption.
  apply callback_spec.
Qed.

(** C6.  Called with a null or undefined rowId, the hook returns the value
    null, the loaded flag false, and a setter and an unsubscribe that do
    nothing; it sends no read and opens no channel; with [skip] false it
    calls the logger exactly once, with [skip] true it does not call it. *)
Theorem missing_rowId_short_circuit (absent : Nullable PKType) w :
  absent = js_null \/ absent = js_undefined ->
  let skip := or_default (opt_skip options) false in
  let h := result (attach String_of channel_topic table absent options) w in
  let w1 := exec (attach String_of channel_topic table absent options) w in
  ret_data h = None
  /\ ret_isLoaded h = false
  /\ (forall updater x, ret_setRow h updater x = (tt, x))
  /\ (forall x, ret_unsubscribe h x = (tt, x))
  /\ logged w1 = logged w ++ (if skip then [] else [invalid_rowId table])
  /\ data w1 = data w /\ isLoaded w1 = isLoaded w /\ channelRef w1 = channelRef w
  /\ isMounted w1 = isMounted w /\ supabase w1 = supabase w
  /\ selects w1 = selects w /\ updates w1 = updates w.
Proof.
  intros [-> | ->]; cbv zeta;
    unfold result, exec, attach, useSupabaseRowState, bind;
    destruct (or_default (opt_skip options) false); cbn;
    rewrite ?app_nil_r; auto 15.
Qed.

(** C7.  The loaded flag starts false; an event sets it exactly when it is
    an initial read resolving while the instance is mounted (success or
    failure) or an insert or update event delivered while the channel is
    registered; once true it stays true through every sequence of events:
    along any sequence it goes from false to true at most once and never
    from true to false. *)
Theorem loaded_flag_monotonic :
  (forall client,
      let w0 : World T PKType := fresh_world client in
      isLoaded w0 = false
      /\ isLoaded (exec (attach String_of channel_topic table (js_value rowId) options) w0)
         = false)
  /\ (forall e w,
         isLoaded (exec (step table rowId options e) w) = isLoaded w || sets_loaded e w)
  /\ (forall es w,
         isLoaded w = true -> isLoaded (run table rowId options es w) = true)
  /\ (forall es w,
         loaded_rises table rowId options es w <= 1
         /\ loaded_falls table rowId options es w = 0).
Proof.
  repeat split.
  - apply (attach_present client).
  - apply step_isLoaded.
  - apply run_keeps_loaded.
  - apply loaded_rises_once.
  - apply loaded_falls_zero.
Qed.

(** C8, as amended.  Called with a present rowId, the hook returns the
    contents of its two state cells, and at the first render these are the
    value null and the loaded flag false.  This null is the null of an
    absent row, not a value of its own: a delete event gives the same value
    again after an insert has replaced it, and a delete event that is
    delivered before the flag is set leaves the value null and the flag
    false, which is the state of the first render again. *)
Theorem initial_value_is_null client new w :
  let w0 : World T PKType := fresh_world client in
  let h := result (attach String_of channel_topic table (js_value rowId) options) w0 in
  let h' := result (useSupabaseRowState table (js_value rowId) options) w in
  (ret_data h = None /\ ret_isLoaded h = false)
  /\ (ret_data h' = data w /\ ret_isLoaded h' = isLoaded w)
  /\ (channel_live w = true ->
      data (run table rowId options [ChangeDelivered (InsertPayload new)] w) = Some new
      /\ data (run table rowId options
                 [ChangeDelivered (InsertPayload new); ChangeDelivered DeletePayload] w)
         = ret_data h)
  /\ (channel_live w = true ->
      isLoaded w = false ->
      let w1 := run table rowId options [ChangeDelivered DeletePayload] w in
      data w1 = ret_data h /\ isLoaded w1 = ret_isLoaded h).
Proof.
  cbv zeta.
  destruct (attach_present client) as (Hh & Hl & _).
  split; [split; assumption|]. split; [split; reflexivity|]. split.
  - intros Hlive. split.
    + unfold run; simpl fold_left; simpl step.
      rewrite deliver_live by assumption. reflexivity.
    + rewrite Hh. rewrite !run_cons. simpl run. simpl step.
      rewrite (deliver_live (InsertPayload new)) by assumption.
      rewrite deliver_live; [reflexivity|].
      destruct (callback_spec (InsertPayload new) w) as (_ & _ & -> & _).
      assumption.
  - intros Hlive Hw. rewrite Hh, Hl. unfold run; simpl fold_left; simpl step.
    rewrite deliver_live by assumption. split; [reflexivity|exact Hw].
Qed.


(** *** The registry *)

Lemma getSupabaseClient_after_calls (clients : list SupabaseClient) :
  Init.getSupabaseClient (Init.after_calls clients)
  = match rev clients with
    | [] => inl Init.not_initialized
    | client :: _ => inr client
    end.
Proof.
  rewrite after_calls_latest. destruct (rev clients); reflexivity.
Qed.

(** *** The rest of the hook: what a step touches *)

Ltac world_cases w :=
  destruct w as [d l [ch|] m c lg ss us n];
  unfold exec, step, deliver, channel_live, fetchRow_resume, react_unmount,
    bind, get_isMounted;
  simpl;
  repeat match goal with
         | |- context [if negb ?b then _ else _] => destruct b; simpl
         | |- context [if ?b then _ else _] => destruct b eqn:?; simpl
         | |- context [match ?x with Some _ => _ | None => _ end] =>
             destruct x eqn:?; simpl
         end.

(** Every event but a call of [setRow] by cases on the world; the call of
    [setRow], the sixth case, by [setRow_spec]. *)
Ltac step_cases e w :=
  destruct e as [[?row|?err]|[?new|?new|]|?updater| | |[?err|]];
  [ world_cases w | world_cases w | world_cases w | world_cases w | world_cases w
  | pose proof (setRow_spec updater w) as Hset; simpl step in *
  | world_cases w | world_cases w | world_cases w | world_cases w ].

Lemma persist_of_one (next : RowState T) :
  let sent := persist_of table rowId options next in
  Forall (targets table rowId options) sent
  /\ length sent <= 1
  /\ (autoSync options = false -> sent = []).
Proof.
  unfold persist_of.
  destruct next as [values|]; [destruct (autoSync options)|]; simpl.
  - split; [|split; [lia|discriminate]].
    constructor; [repeat split|constructor].
  - split; [constructor|split; [lia|reflexivity]].
  - split; [constructor|split; [lia|reflexivity]].
Qed.

Lemma persist_of_repeat n (next : RowState T) :
  let sent := concat (repeat (persist_of table rowId options next) n) in
  Forall (targets table rowId options) sent
  /\ length sent <= n
  /\ (autoSync options = false -> sent = []).
Proof.
  destruct (persist_of_one next) as (Ht & Hl & Ho).
  cbv zeta in *. set (p := persist_of table rowId options next) in *.
  induction n as [|n (IHt & IHl & IHo)]; simpl.
  - repeat split; [constructor|lia].
  - rewrite length_app. repeat split.
    + now apply Forall_app.
    + lia.
    + intros H. now rewrite (IHo H), (Ho H).
Qed.

Lemma step_frame e w :
  let w1 := exec (step table rowId options e) w in
  selects w1 = selects w
  /\ channelRef w1 = channelRef w
  /\ next_chan_id (supabase w1) = next_chan_id (supabase w)
  /\ (supabase w1 = supabase w
      \/ exists ch, channelRef w = Some ch
                    /\ supabase w1 = client_removeChannel ch (supabase w))
  /\ (isMounted w = false -> isMounted w1 = false)
  /\ updater_runs w1 <= updater_runs w.
Proof.
  step_cases e w.
  all: try (destruct Hset as (_ & _ & _ & _ & Hm & _ & Hs & Hc & Hsu & Hn);
            cbv zeta; rewrite Hs, Hc, Hsu, Hm, Hn).
  all: repeat split; auto; try lia; try (right; eexists; split; reflexivity).
Qed.

Lemma step_updates e w :
  exists sent,
    updates (exec (step table rowId options e) w) = updates w ++ sent
    /\ Forall (targets table rowId options) sent
    /\ length sent <= (if is_setRow e then updater_runs w else 0)
    /\ (autoSync options = false -> sent = []).
Proof.
  step_cases e w.
  all: try (destruct Hset as (_ & -> & _); eexists; split; [reflexivity|];
            apply persist_of_repeat).
  all: exists []; rewrite app_nil_r; split; [reflexivity|];
         split; [constructor|]; split; [simpl; lia|reflexivity].
Qed.

Lemma step_logged e w :
  exists more,
    logged (exec (step table rowId options e) w) = logged w ++ more
    /\ length more <= (if reports_failure e then 1 else 0).
Proof.
  step_cases e w.
  all: try (destruct Hset as (_ & _ & -> & _)).
  all: first
         [ eexists; split; [reflexivity|simpl; lia]
         | exists []; rewrite app_nil_r; split; [reflexivity|simpl; lia] ].
Qed.

Lemma run_frame es w :
  let w1 := run table rowId options es w in
  selects w1 = selects w
  /\ channelRef w1 = channelRef w
  /\ next_chan_id (supabase w1) = next_chan_id (supabase w)
  /\ (isMounted w = false -> isMounted w1 = false)
  /\ updater_runs w1 <= updater_runs w.
Proof.
  revert w. induction es as [|e es IH]; intros w; [simpl; auto 6|].
  cbv zeta. rewrite run_cons.
  destruct (step_frame e w) as (Hs & Hc & Hn & _ & Hm & Hr).
  destruct (IH (exec (step table rowId options e) w)) as (Hs' & Hc' & Hn' & Hm' & Hr').
  repeat split; try congruence; [auto|lia].
Qed.

(** *** Channels of the client *)

Lemma same_channel_trans a b c :
  same_channel a b = true -> same_channel a c = true -> same_channel c b = true.
Proof.
  unfold same_channel. rewrite !Nat.eqb_eq. congruence.
Qed.

Lemma registered_other_removeChannel other ch c :
  same_channel other ch = false ->
  registered other (client_removeChannel ch c) = registered other c.
Proof.
  intros Hd. unfold registered, client_removeChannel; simpl.
  induction (channels c) as [|a l IH]; simpl; [reflexivity|].
  destruct (same_channel a ch) eqn:Ha; simpl; [|now rewrite IH].
  destruct (same_channel a other) eqn:Hb; simpl; [|exact IH].
  rewrite (same_channel_trans a ch other Ha Hb) in Hd. discriminate.
Qed.

Lemma removeChannel_unregistered ch c :
  registered ch c = false -> client_removeChannel ch c = c.
Proof.
  destruct c as [chs n sub]. unfold registered, client_removeChannel; simpl.
  intros H. f_equal.
  induction chs as [|a l IH]; simpl in *; [reflexivity|].
  apply orb_false_iff in H as [Ha Hl]. rewrite Ha. simpl. now rewrite IH.
Qed.

Lemma step_keeps_released e w :
  channel_live w = false -> channel_live (exec (step table rowId options e) w) = false.
Proof.
  intros Hl. destruct (step_frame e w) as (_ & Hc & _ & [Hs | (ch & Hch & Hs)] & _);
    unfold channel_live in *; rewrite Hc, Hs.
  - exact Hl.
  - rewrite Hch. apply registered_client_removeChannel.
Qed.

Lemma step_keeps_others e w other :
  (forall ch, channelRef w = Some ch -> same_channel other ch = false) ->
  registered other (supabase (exec (step table rowId options e) w))
  = registered other (supabase w).
Proof.
  intros Hd. destruct (step_frame e w) as (_ & _ & _ & [Hs | (ch & Hch & Hs)] & _);
    rewrite Hs; [reflexivity|].
  apply registered_other_removeChannel. now apply Hd.
Qed.

(** A step on an instance that React has unmounted. *)
Lemma step_torn_down e w :
  isMounted w = false -> channel_live w = false -> updater_runs w = 0 ->
  store_or_cleanup e = true ->
  exec (step table rowId options e) w = w.
Proof.
  intros Hm Hl Hn He.
  destruct e as [r|payload|updater| | |error]; try discriminate He; simpl step.
  - now apply fetchRow_resume_unmounted.
  - now apply deliver_released.
  - destruct w as [d l [ch|] m c lg ss us n]; [|reflexivity].
    unfold channel_live in Hl; simpl in Hl. cbn.
    now rewrite (removeChannel_unregistered ch c Hl).
  - destruct w as [d l [ch|] m c lg ss us n]; simpl in Hm, Hn; subst m n;
      [|reflexivity].
    unfold channel_live in Hl; simpl in Hl. cbn.
    now rewrite (removeChannel_unregistered ch c Hl).
Qed.

Lemma unmount_tears_down w :
  isMounted (exec react_unmount w) = false
  /\ channel_live (exec react_unmount w) = false
  /\ updater_runs (exec react_unmount w) = 0.
Proof.
  destruct w as [d l [ch|] m c lg ss us n]; cbn; repeat split.
  apply registered_client_removeChannel.
Qed.

(** *** The world right after the first render and its effects *)

Lemma duplicate_check_none key client :
  channels client = [] -> duplicate_check key client = ([], inr None).
Proof.
  intros H. unfold duplicate_check, getChannels. rewrite H. reflexivity.
Qed.

Lemma mount_effects_world w :
  let key := channelKey String_of table rowId in
  let c := supabase w in
  let checked held :=
    {| channels := held; next_chan_id := next_chan_id c;
       subscribe_held := subscribe_held c |} in
  let w' := exec (mount_effects String_of channel_topic table rowId options) w in
  let thrown := result (mount_effects String_of channel_topic table rowId options) w in
  match duplicate_check key c with
  | (held, inl e) =>
      thrown = Some e
      /\ supabase w' = checked held
      /\ selects w' = selects w /\ logged w' = logged w
      /\ channelRef w' = channelRef w /\ isMounted w' = isMounted w
  | (held, inr found) =>
      thrown = None
      /\ selects w'
         = selects w ++ [ {| select_from := table; select_columns := select options;
                             select_eq_column := primaryKey options;
                             select_eq_value := rowId |} ]
      /\ logged w'
         = logged w ++ match found with
                       | Some _ => [duplicate_warning key]
                       | None => []
                       end
      /\ isMounted w' = true
      /\ w' = exec (subscription_effect String_of channel_topic table rowId options)
                (exec (fetch_effect table rowId options)
                   (exec (check_channel_effect String_of table rowId) w))
      /\ supabase (exec (check_channel_effect String_of table rowId) w) = checked held
      /\ channelRef (exec (check_channel_effect String_of table rowId) w) = channelRef w
  end
  /\ data w' = data w /\ isLoaded w' = isLoaded w /\ updates w' = updates w
  /\ updater_runs w' = updater_runs w.
Proof.
  cbv zeta. unfold duplicate_check, result, exec, mount_effects,
    check_channel_effect, bind, get_supabase; simpl.
  destruct (find_subscribing _ _ _ _) as [held [e|[found|]]];
    destruct w as [d l [ch|] m c lg ss us n]; cbn; rewrite ?app_nil_r; auto 12.
Qed.

Lemma attach_world client :
  let key := channelKey String_of table rowId in
  let ch := {| chan_id := next_chan_id client;
               topic := channel_topic key;
               listen_type := REALTIME_LISTEN_TYPES_POSTGRES_CHANGES;
               changes :=
                 {| filter_event := REALTIME_POSTGRES_CHANGES_LISTEN_EVENT_ALL;
                    filter_schema := schema options;
                    filter_table := table;
                    filter_filter := (primaryKey options ++ "=eq." ++ String_of rowId)%string |}
            |} in
  let w0 : World T PKType := fresh_world client in
  exec (attach String_of channel_topic table (js_value rowId) options) w0
  = match duplicate_check key client with
    | (held, inl e) =>
        {| data := None; isLoaded := false; channelRef := None; isMounted := false;
           supabase := {| channels := held; next_chan_id := next_chan_id client;
                          subscribe_held := subscribe_held client |};
           logged := []; selects := []; updates := []; updater_runs := 0 |}
    | (held, inr found) =>
        {| data := None; isLoaded := false; channelRef := Some ch; isMounted := true;
           supabase := {| channels := held ++ [ch];
                          next_chan_id := S (next_chan_id client);
                          subscribe_held := subscribe_held client |};
           logged := match found with
                     | Some _ => [duplicate_warning key]
                     | None => []
                     end;
           selects := [ {| select_from := table; select_columns := select options;
                           select_eq_column := primaryKey options;
                           select_eq_value := rowId |} ];
           updates := []; updater_runs := 1 |}
    end.
Proof.
  cbv zeta. unfold duplicate_check, exec, attach, useSupabaseRowState, mount_effects,
    check_channel_effect, bind, get_data, get_isLoaded, get_supabase; simpl.
  destruct (find_subscribing _ _ _ _) as [held [e|[found|]]]; reflexivity.
Qed.

(** *** The subscription effect on any world *)

Lemma subscription_effect_world w :
  let w1 := exec (subscription_effect String_of channel_topic table rowId options) w in
  exists ch,
    chan_id ch = next_chan_id (supabase w)
    /\ channelRef w1 = Some ch
    /\ channels (supabase w1) = channels (released (supabase w) (channelRef w)) ++ [ch]
    /\ next_chan_id (supabase w1) = S (next_chan_id (supabase w)).
Proof.
  destruct w as [d l [old|] m c lg ss us]; cbn; eexists;
    (split; [|split; [reflexivity|split; reflexivity]]); reflexivity.
Qed.

(** *** Further properties of the hook *)


(** X2.  A second instance for the same table and rowId, on the client the
    first one has used and that held no channel before: its duplicate check
    calls [subscribe()] on the channel of the first instance.  When that
    call throws, the effect of the second instance throws the same error,
    and the instance logs nothing, sends no read and opens no channel.  When
    the call returns, the instance goes on, and it logs the warning exactly
    when the client files a channel under the very name it was opened
    with. *)
Theorem second_instance_warning client :
  channels client = [] ->
  let key := channelKey String_of table rowId in
  let w1 : World T PKType :=
    exec (attach String_of channel_topic table (js_value rowId) options)
         (fresh_world client) in
  let w2 : World T PKType :=
    exec (attach String_of channel_topic table (js_value rowId) options)
         (fresh_world (supabase w1)) in
  exists first,
    channelRef w1 = Some first
    /\ channels (supabase w1) = [first]
    /\ match subscribe_held client first [first] with
       | inl e =>
           result (mount_effects String_of channel_topic table rowId options)
                  (fresh_world (supabase w1) : World T PKType) = Some e
           /\ logged w2 = [] /\ selects w2 = [] /\ channelRef w2 = None
       | inr held =>
           logged w2 = (if String.eqb (channel_topic key) key
                        then [duplicate_warning key] else [])
           /\ length (selects w2) = 1
           /\ exists second, channelRef w2 = Some second
                             /\ channels (supabase w2) = held ++ [second]
       end.
Proof.
  intros Hnone. cbv zeta.
  rewrite (attach_world client), (duplicate_check_none _ client Hnone).
  simpl supabase. simpl app.
  eexists. split; [reflexivity|]. split; [reflexivity|].
  rewrite attach_world.
  match goal with
  | |- context [fresh_world ?c] =>
      pose proof (mount_effects_world (fresh_world c : World T PKType)) as Hm
  end.
  cbv zeta in Hm. simpl supabase in Hm.
  unfold duplicate_check, getChannels in *. simpl channels in *.
  simpl subscribe_held in *. simpl find_subscribing in *.
  destruct (subscribe_held client _ _) as [e|held].
  - destruct Hm as ((-> & _) & _). simpl. auto.
  - simpl topic in *.
    destruct (String.eqb (channel_topic (channelKey String_of table rowId))
                (channelKey String_of table rowId)); simpl;
      (split; [reflexivity|]; split; [reflexivity|]; eexists; split; reflexivity).
Qed.

(** X3.  When the subscription effect runs again, it releases the channel
    the instance holds before it opens the new one: afterwards the old
    channel is not registered, the new one is, the instance refers to the
    new one, every other registration of the client is as before, and the
    client holds at most one registration more. *)
Theorem resubscribe_releases_previous w :
  handles_issued w = true ->
  let w1 := exec (subscription_effect String_of channel_topic table rowId options) w in
  channel_live w1 = true
  /\ handles_issued w1 = true
  /\ (forall old, channelRef w = Some old ->
                  registered old (supabase w1) = false /\ channelRef w1 <> Some old)
  /\ (forall other,
         (forall old, channelRef w = Some old -> same_channel other old = false) ->
         chan_id other < next_chan_id (supabase w) ->
         registered other (supabase w1) = registered other (supabase w))
  /\ length (channels (supabase w1)) <= S (length (channels (supabase w))).
Proof.
  intros Hw. cbv zeta.
  destruct (subscription_effect_world w) as (ch & Hid & Href & Hchs & Hnext).
  unfold handles_issued in Hw. apply andb_true_iff in Hw as [Hall Hold].
  rewrite forallb_forall in Hall.
  set (w1 := exec (subscription_effect String_of channel_topic table rowId options) w) in *.
  assert (Hreg : forall x, registered x (supabase w1)
                           = registered x (released (supabase w) (channelRef w))
                             || same_channel ch x).
  { intros x. unfold registered. rewrite Hchs, existsb_app. simpl.
    now rewrite orb_false_r. }
  assert (Hnew : forall x, chan_id x < next_chan_id (supabase w) ->
                           same_channel ch x = false).
  { intros x Hx. unfold same_channel. rewrite Hid. apply Nat.eqb_neq. lia. }
  split; [|split; [|split; [|split]]].
  - unfold channel_live. rewrite Href, Hreg.
    unfold same_channel. now rewrite Nat.eqb_refl, orb_true_r.
  - unfold handles_issued. rewrite Href, Hchs, Hnext, Hid.
    rewrite andb_true_iff; split; [|apply Nat.ltb_lt; lia].
    rewrite forallb_app, andb_true_iff; split.
    + apply forallb_forall. intros x Hx.
      assert (Hin : In x (channels (supabase w))).
      { destruct (channelRef w); simpl in Hx; [|exact Hx].
        now apply filter_In in Hx as [Hx _]. }
      apply Hall in Hin. apply Nat.ltb_lt in Hin. apply Nat.ltb_lt. lia.
    + simpl. rewrite andb_true_r, Hid. apply Nat.ltb_lt. lia.
  - intros old Hr. rewrite Hr in *. apply Nat.ltb_lt in Hold. split.
    + rewrite Hreg, (Hnew old Hold), orb_false_r.
      apply registered_client_removeChannel.
    + rewrite Href. intros H. injection H as H. rewrite H in Hid. lia.
  - intros other Hother Hlt.
    rewrite Hreg, (Hnew other Hlt), orb_false_r.
    destruct (channelRef w) as [old|]; [|reflexivity].
    apply registered_other_removeChannel. now apply Hother.
  - rewrite Hchs, length_app. simpl.
    assert (length (channels (released (supabase w) (channelRef w)))
            <= length (channels (supabase w))).
    { destruct (channelRef w); simpl; [apply filter_length_le|lia]. }
    lia.
Qed.

(** X4.  The unmount is final for everything that comes from the store or
    from a cleanup: after it, no sequence of read completions, change
    deliveries, [unsubscribe] calls and further cleanups changes anything. *)
Theorem unmount_is_final es w :
  forallb store_or_cleanup es = true ->
  run table rowId options es (exec (step table rowId options Unmounted) w)
  = exec (step table rowId options Unmounted) w.
Proof.
  simpl step. destruct (unmount_tears_down w) as (Hm & Hl & Hn).
  generalize dependent (exec react_unmount w). intros w0 Hm Hl Hn.
  induction es as [|e es IH]; intros Hes; [reflexivity|].
  simpl in Hes. apply andb_true_iff in Hes as [He Hes].
  rewrite run_cons, step_torn_down by assumption. now apply IH.
Qed.

(** X5.  The unmount cleanup does all that [unsubscribe] does: calling
    [unsubscribe] before or after the unmount gives the same world as the
    unmount alone; and neither of the two clears the value or the loaded
    flag. *)
Theorem unmount_absorbs_unsubscribe w :
  exec unmount (exec unsubscribe w) = exec unmount w
  /\ exec unsubscribe (exec unmount w) = exec unmount w
  /\ data (exec unmount w) = data w
  /\ isLoaded (exec unmount w) = isLoaded w.
Proof.
  destruct w as [d l [ch|] m c lg ss us]; cbn;
    rewrite ?client_removeChannel_twice; auto.
Qed.

(** X6.  Each run of the effects of the first render that completes sends
    exactly one point read, for the select expression, the table, the
    primary key column and the rowId; a run whose duplicate check throws
    sends none; and no event after that (read completion, change event,
    [setRow], [unsubscribe], unmount, update completion) ever sends a
    read. *)
Theorem one_read_per_mount es w :
  let w1 := exec (mount_effects String_of channel_topic table rowId options) w in
  selects w1
  = selects w
    ++ match result (mount_effects String_of channel_topic table rowId options) w with
       | Some _ => []
       | None => [ {| select_from := table; select_columns := select options;
                      select_eq_column := primaryKey options;
                      select_eq_value := rowId |} ]
       end
  /\ selects (run table rowId options es w1) = selects w1.
Proof.
  cbv zeta. split; [|apply run_frame].
  pose proof (mount_effects_world w) as H. cbv zeta in H.
  destruct (duplicate_check _ _) as [held [e|found]]; destruct H as (H & _).
  - destruct H as (-> & _ & -> & _). now rewrite app_nil_r.
  - destruct H as (-> & -> & _). reflexivity.
Qed.

(** X7.  With [autoSync] off the hook never writes to the store: no
    sequence of events sends a point update. *)
Theorem autoSync_off_never_writes es w :
  autoSync options = false ->
  updates (run table rowId options es w) = updates w.
Proof.
  intros Hoff. revert w. induction es as [|e es IH]; intros w; [reflexivity|].
  rewrite run_cons, IH.
  destruct (step_updates e w) as (sent & -> & _ & _ & Hnone).
  rewrite (Hnone Hoff). apply app_nil_r.
Qed.

(** X8.  Along any sequence of events the point updates already sent stay
    as they are; the ones added all address the table, the primary key
    column and the rowId of the instance; only calls of [setRow] add any,
    each at most one for every time React runs its updater. *)
Theorem updates_address_own_row es w :
  exists sent,
    updates (run table rowId options es w) = updates w ++ sent
    /\ Forall (targets table rowId options) sent
    /\ length sent <= updater_runs w * length (filter is_setRow es).
Proof.
  revert w. induction es as [|e es IH]; intros w.
  - exists []. simpl. rewrite app_nil_r. repeat split; [constructor|lia].
  - rewrite run_cons.
    destruct (step_updates e w) as (sent1 & H1 & Ht1 & Hn1 & _).
    destruct (step_frame e w) as (_ & _ & _ & _ & _ & Hr).
    destruct (IH (exec (step table rowId options e) w)) as (sent2 & H2 & Ht2 & Hn2).
    exists (sent1 ++ sent2). rewrite H2, H1, app_assoc. split; [reflexivity|].
    split; [now apply Forall_app|].
    rewrite length_app.
    assert (Hmono : updater_runs (exec (step table rowId options e) w)
                    * length (filter is_setRow es)
                    <= updater_runs w * length (filter is_setRow es))
      by (apply Nat.mul_le_mono_r; exact Hr).
    simpl filter. destruct (is_setRow e); simpl length in *; lia.
Qed.

(** X9.  The logger hears of failures only: along any sequence of events
    the lines already logged stay, and at most one line is added for each
    failed read and each failed point update in the sequence; a sequence
    without failures logs nothing. *)
Theorem log_only_on_failure es w :
  exists more,
    logged (run table rowId options es w) = logged w ++ more
    /\ length more <= length (filter reports_failure es).
Proof.
  revert w. induction es as [|e es IH]; intros w.
  - exists []. simpl. rewrite app_nil_r. split; [reflexivity|lia].
  - rewrite run_cons.
    destruct (step_logged e w) as (more1 & H1 & Hn1).
    destruct (IH (exec (step table rowId options e) w)) as (more2 & H2 & Hn2).
    exists (more1 ++ more2). rewrite H2, H1, app_assoc. split; [reflexivity|].
    rewrite length_app. simpl. destruct (reports_failure e); simpl in *; lia.
Qed.

Lemma deliveries_live payloads w :
  channel_live w = true ->
  let w1 := run table rowId options (map ChangeDelivered payloads) w in
  channel_live w1 = true
  /\ isLoaded w1 = isLoaded w || existsb is_upsert payloads.
Proof.
  revert w. induction payloads as [|payload payloads IH]; intros w Hl.
  - simpl. now rewrite orb_false_r.
  - cbv zeta. simpl map. rewrite run_cons. simpl step.
    rewrite deliver_live by assumption.
    destruct (callback_spec payload w) as (Hp & _ & Hl' & _).
    rewrite Hl in Hl'.
    destruct (IH _ Hl') as (-> & ->). split; [reflexivity|].
    simpl existsb. rewrite orb_assoc. f_equal.
    destruct payload; destruct Hp as (_ & ->);
      simpl; now rewrite ?orb_true_r, ?orb_false_r.
Qed.

(** X10.  Change events are applied in the order of their delivery and the
    last one wins: after any sequence of deliveries on a registered channel
    the value is the new row of the last event, or null if that was a
    delete; the loaded flag is true if it was before or if one of the events
    was an insert or an update. *)
Theorem last_change_event_wins payloads payload w :
  channel_live w = true ->
  let w1 := run table rowId options (map ChangeDelivered (payloads ++ [payload])) w in
  data w1 = payload_value payload
  /\ isLoaded w1 = isLoaded w || existsb is_upsert (payloads ++ [payload]).
Proof.
  intros Hl. cbv zeta. split; [|now apply deliveries_live].
  rewrite map_app, run_app. simpl map.
  destruct (deliveries_live payloads w Hl) as (Hl' & _).
  unfold run at 1. simpl fold_left. simpl step.
  rewrite deliver_live by assumption.
  destruct payload; reflexivity.
Qed.

(** X11.  No event arms an instance again: once the channel of the
    instance is released it stays released, and once the [isMounted] guard
    is false it stays false, through every sequence of events; and the
    instance refers to the same channel all along. *)
Theorem released_stays_released es w :
  (channel_live w = false -> channel_live (run table rowId options es w) = false)
  /\ (isMounted w = false -> isMounted (run table rowId options es w) = false)
  /\ channelRef (run table rowId options es w) = channelRef w.
Proof.
  split; [|split; apply run_frame].
  revert w. induction es as [|e es IH]; intros w Hl; [exact Hl|].
  rewrite run_cons. apply IH. now apply step_keeps_released.
Qed.

(** X12.  The hook releases no channel but its own: a registration of the
    client that is not the channel of the instance is registered after any
    sequence of events exactly if it was before. *)
Theorem only_own_channel_released es w other :
  (forall ch, channelRef w = Some ch -> same_channel other ch = false) ->
  registered other (supabase (run table rowId options es w))
  = registered other (supabase w).
Proof.
  revert w. induction es as [|e es IH]; intros w Hother; [reflexivity|].
  rewrite run_cons, IH.
  - now apply step_keeps_others.
  - destruct (step_frame e w) as (_ & -> & _). exact Hother.
Qed.

(** X13.  [getSupabaseClient] throws, and then the configuration error,
    exactly when no call of [initSupabaseState] came before it; after one or
    more calls it returns the client of the latest call, whatever was
    registered before. *)
Theorem registry_returns_latest (clients : list SupabaseClient) :
  let reg := Init.after_calls clients in
  ((exists err, Init.getSupabaseClient reg = inl err) <-> clients = [])
  /\ (forall err, Init.getSupabaseClient reg = inl err -> err = Init.not_initialized)
  /\ (forall client,
         Init.getSupabaseClient reg = inr client
         <-> exists earlier, clients = earlier ++ [client]).
Proof.
  cbv zeta. rewrite getSupabaseClient_after_calls.
  assert (Hrev : forall c l, rev clients = c :: l -> clients = rev l ++ [c]).
  { intros c l H. rewrite <- (rev_involutive clients), H. reflexivity. }
  assert (Hnil : rev clients = [] -> clients = []).
  { intros H. rewrite <- (rev_involutive clients), H. reflexivity. }
  destruct (rev clients) as [|c l] eqn:E.
  - rewrite (Hnil eq_refl) in *. split; [|split].
    + split; [reflexivity|]. intros _. eexists; reflexivity.
    + intros err H. congruence.
    + intros client. split; [discriminate|].
      intros [earlier H]. now destruct earlier.
  - split; [|split].
    + split; [intros [err H]; discriminate|].
      intros H. rewrite H in E. discriminate.
    + intros err H. discriminate.
    + intros client. split.
      * intros H. injection H as <-. exists (rev l). now apply Hrev.
      * intros [earlier H]. rewrite H, rev_unit in E. congruence.
Qed.

(** X14.  A call of [setRow] writes to the store once for every time React
    runs its updater: with [autoSync] on and a computed value that is not
    null it sends as many equal point updates as there are runs (one in a
    mounted component, two under StrictMode, none after the unmount), and
    otherwise none; the value stored is the computed one as soon as there is
    one run. *)
Theorem setRow_writes_per_run w updater :
  let next := computed updater (data w) in
  let w1 := exec (step table rowId options (SetRowCalled updater)) w in
  data w1 = match updater_runs w with
            | O => data w
            | S _ => next
            end
  /\ (forall values,
         autoSync options = true -> next = Some values ->
         updates w1
         = updates w
           ++ repeat {| update_from := table; update_values := values;
                        update_eq_column := primaryKey options;
                        update_eq_value := rowId |} (updater_runs w))
  /\ (autoSync options = false \/ next = None -> updates w1 = updates w).
Proof.
  cbv zeta. simpl step.
  destruct (setRow_spec updater w) as (Hd & Hu & _).
  split; [exact Hd|]. rewrite Hu. clear Hd Hu. unfold persist_of. split.
  - intros values Ha Hv. rewrite Hv, Ha. f_equal.
    induction (updater_runs w) as [|n IH]; simpl; [reflexivity|now rewrite IH].
  - intros H.
    assert (Hnone : match computed updater (data w) with
                    | Some values =>
                        if autoSync options
                        then [ {| update_from := table; update_values := values;
                                  update_eq_column := primaryKey options;
                                  update_eq_value := rowId |} ]
                        else []
                    | None => []
                    end = []).
    { destruct H as [-> | ->]; [destruct (computed updater (data w))|]; reflexivity. }
    rewrite Hnone.
    induction (updater_runs w) as [|n IH]; simpl; [apply app_nil_r|exact IH].
Qed.

End Properties.

(** ** The statements at the "profiles" / "u1" instance *)

Import Scenario.

(** C1 at an update event followed by a successful read. *)
Lemma read_after_change_event_witness :
  isMounted mounted = true
  /\ channel_live mounted = true
  /\ (let w1 := exec (step "profiles" "u1" defaults (ChangeDelivered (UpdatePayload ann2)))
                     mounted in
      let w2 := exec (step "profiles" "u1" defaults (ReadResolved (ResponseSuccess ann)))
                     w1 in
      data w1 = Some ann2 /\ isLoaded w2 = true /\ data w2 = Some ann).
Proof.
  split; [reflexivity|]. split; [reflexivity|].
  apply (read_after_change_event Profile string "profiles" "u1" defaults
           mounted ann2 (UpdatePayload ann2) (ResponseSuccess ann));
    [reflexivity | reflexivity | right; reflexivity].
Defined.

(** C1 as stated fails: the update event delivers "Ann2", the read that
    resolves afterwards returns "Ann", and the value ends as "Ann". *)
Lemma read_overwrites_change_event :
  let w := go [ChangeDelivered (UpdatePayload ann2); ReadResolved (ResponseSuccess ann)]
              mounted in
  isLoaded w = true /\ data w = Some ann /\ data w <> Some ann2.
Proof.
  vm_compute. repeat split. discriminate.
Qed.

(** C2 as stated fails: after [unsubscribe], the read that resolves late
    still writes the value and the loaded flag. *)
Lemma late_read_after_unsubscribe :
  let w1 := go [UnsubscribeCalled] mounted in
  let w2 := go [UnsubscribeCalled; ReadResolved (ResponseSuccess ann)] mounted in
  data w1 = None /\ isLoaded w1 = false
  /\ data w2 = Some ann /\ isLoaded w2 = true
  /\ data w2 <> data w1 /\ isLoaded w2 <> isLoaded w1.
Proof.
  vm_compute. repeat split; discriminate.
Qed.

(** C4 at a read that finds no row. *)
Lemma read_completion_sets_loaded_witness :
  isMounted mounted = true
  /\ (let w1 := exec (step "profiles" "u1" defaults (ReadResolved (ResponseFailure not_found)))
                     mounted in
      isLoaded w1 = true /\ data w1 = data mounted
      /\ logged w1
         = logged mounted
           ++ ["Failed to fetch row from profiles: JSON object requested, multiple (or no) rows returned"])
  /\ channel_live mounted = true
  /\ data (go [ChangeDelivered (UpdatePayload ann2);
               ReadResolved (ResponseFailure not_found)] mounted) = Some ann2.
Proof.
  split; [reflexivity|].
  destruct (read_completion_sets_loaded Profile string "profiles" "u1" defaults
              mounted (ResponseFailure not_found) eq_refl) as (Hl & (Hd & Hlog) & Hfeed).
  split; [|split; [reflexivity|]].
  - split; [exact Hl|]. split; [exact Hd|exact Hlog].
  - apply (Hfeed ann2 not_found eq_refl).
Defined.

(** C5 at a delete event. *)
Lemma change_event_applied_witness :
  channel_live mounted = true
  /\ (let w1 := exec (step "profiles" "u1" defaults (ChangeDelivered DeletePayload))
                     mounted in
      data w1 = None /\ isLoaded w1 = isLoaded mounted).
Proof.
  split; [reflexivity|].
  apply (change_event_applied Profile string "profiles" "u1" defaults
           mounted DeletePayload eq_refl).
Defined.

(** C6 at an undefined rowId with the default options. *)
Lemma missing_rowId_short_circuit_witness :
  (@js_undefined string = js_null \/ @js_undefined string = js_undefined)
  /\ (let w0 : World Profile string := fresh_world client in
      let h := result (attach String_of channel_topic "profiles" js_undefined defaults) w0 in
      let w1 := exec (attach String_of channel_topic "profiles" js_undefined defaults) w0 in
      ret_data h = None /\ ret_isLoaded h = false
      /\ logged w1 = ["useSupabaseRowState: Invalid rowId for table profiles"]).
Proof.
  split; [right; reflexivity|].
  destruct (missing_rowId_short_circuit Profile string String_of channel_topic
              "profiles" defaults js_undefined (fresh_world client)
              (or_intror eq_refl)) as (Hd & Hl & _ & _ & Hlog & _).
  split; [exact Hd|]. split; [exact Hl|]. exact Hlog.
Defined.

(** C7 at an instance whose read has resolved, followed by a delete, a
    [setRow], an [unsubscribe] and the unmount. *)
Lemma loaded_flag_monotonic_witness :
  let w := go [ReadResolved (ResponseSuccess ann)] mounted in
  isLoaded w = true
  /\ isLoaded (go [ChangeDelivered DeletePayload; SetRowCalled (UpdaterFunction rename);
                   UnsubscribeCalled; Unmounted] w) = true.
Proof.
  split; [reflexivity|].
  apply (proj1 (proj2 (proj2
           (loaded_flag_monotonic Profile string String_of channel_topic
              "profiles" "u1" defaults)))).
  reflexivity.
Defined.

(** C8 as stated fails: the value returned before the first read is the
    null that a delete event leaves, and the value comes back to it after
    it has been "Ann". *)
Lemma initial_value_not_distinct :
  let deleted := go [ChangeDelivered (InsertPayload ann); ChangeDelivered DeletePayload]
                    mounted in
  ret_data handle = None
  /\ data (go [ChangeDelivered (InsertPayload ann)] mounted) <> ret_data handle
  /\ data deleted = ret_data handle.
Proof.
  vm_compute. repeat split. discriminate.
Qed.



(** C8 at the mounted instance. *)
Lemma initial_value_is_null_witness :
  channel_live mounted = true
  /\ isLoaded mounted = false
  /\ data (go [ChangeDelivered (InsertPayload ann); ChangeDelivered DeletePayload] mounted)
     = ret_data handle
  /\ (let w1 := go [ChangeDelivered DeletePayload] mounted in
      data w1 = ret_data handle /\ isLoaded w1 = ret_isLoaded handle).
Proof.
  split; [reflexivity|]. split; [reflexivity|].
  destruct (initial_value_is_null Profile string String_of channel_topic
              "profiles" "u1" defaults client ann mounted)
    as (_ & _ & Hback & Hfirst).
  split; [apply (Hback eq_refl)|apply (Hfirst eq_refl eq_refl)].
Defined.

(** C9 fails on the code at a second instance for the row of the first, on
    a client that lets a channel be subscribed once: the registry was
    initialised, and still the duplicate check of the second instance throws,
    from its [ch.subscribe()], an error that is not the configuration error;
    the error leaves the effect, the logger is not called, and the instance
    sends no read and opens no channel. *)
Theorem duplicate_check_error_escapes :
  let w0 : World Profile string := fresh_world (supabase mounted) in
  let thrown := result (mount_effects String_of channel_topic "profiles" "u1" defaults) w0 in
  let w := exec (attach String_of channel_topic "profiles" (js_value "u1") defaults) w0 in
  Init.getSupabaseClient (Init.after_calls [client]) = inr client
  /\ thrown = Some subscribed_already
  /\ subscribed_already <> Init.not_initialized
  /\ logged w = []
  /\ selects w = []
  /\ channelRef w = None.
Proof.
  vm_compute. repeat split. discriminate.
Qed.



(** X2 on the client of the scenario, which lets a channel be subscribed
    once. *)
Lemma second_instance_warning_witness :
  channels client = []
  /\ (let w2 : World Profile string :=
        exec (attach String_of channel_topic "profiles" (js_value "u1") defaults)
             (fresh_world (supabase mounted)) in
      logged w2 = [] /\ selects w2 = [] /\ channelRef w2 = None).
Proof.
  split; [reflexivity|].
  destruct (second_instance_warning Profile string String_of channel_topic
              "profiles" "u1" defaults client eq_refl)
    as (first & Hfirst & Hheld & Hsecond).
  cbv zeta in Hsecond. simpl subscribe_held in Hsecond.
  unfold subscribe_once in Hsecond.
  destruct Hsecond as (_ & Hlog & Hsel & Href).
  split; [exact Hlog|]. split; [exact Hsel|exact Href].
Defined.

(** X14 in a StrictMode tree: one call, two point updates. *)
Lemma setRow_writes_per_run_witness :
  let w1 := exec (step "profiles" "u1" defaults (SetRowCalled (UpdaterValue (Some annX))))
                 mounted_strict in
  autoSync defaults = true
  /\ updater_runs mounted_strict = 2
  /\ data w1 = Some annX
  /\ updates w1 = [ {| update_from := "profiles"; update_values := annX;
                       update_eq_column := "id"; update_eq_value := "u1" |};
                    {| update_from := "profiles"; update_values := annX;
                       update_eq_column := "id"; update_eq_value := "u1" |} ].
Proof.
  cbv zeta. split; [reflexivity|]. split; [reflexivity|].
  destruct (setRow_writes_per_run Profile string "profiles" "u1" defaults
              mounted_strict (UpdaterValue (Some annX))) as (Hd & Hsent & _).
  split; [exact Hd|]. apply (Hsent annX eq_refl eq_refl).
Defined.

(** X13 after two calls of [initSupabaseState]: the second client is the
    one returned. *)
Lemma registry_returns_latest_witness :
  (exists earlier, [busy_client; client] = earlier ++ [client])
  /\ Init.getSupabaseClient (Init.after_calls [busy_client; client]) = inr client.
Proof.
  assert (H : exists earlier, [busy_client; client] = earlier ++ [client])
    by (exists [busy_client]; reflexivity).
  split; [exact H|].
  apply (proj2 (proj2 (proj2 (registry_returns_latest [busy_client; client])) client)).
  exact H.
Defined.

(** *** The scenarios of the specification *)

(** The read returns "Ann", an update event brings "Ann2", a delete event
    leaves null with the loaded flag still true. *)
Example scenario_read_update_delete :
  let w1 := go [ReadResolved (ResponseSuccess ann)] mounted in
  let w2 := go [ChangeDelivered (UpdatePayload ann2)] w1 in
  let w3 := go [ChangeDelivered DeletePayload] w2 in
  (data w1, isLoaded w1) = (Some ann, true)
  /\ (data w2, isLoaded w2) = (Some ann2, true)
  /\ (data w3, isLoaded w3) = (None, true).
Proof. vm_compute. auto. Qed.

(** [setRow(prev => ({...prev, name: "X"}))] on "Ann": the value is renamed
    at once and one point update is sent; its failure is only logged. *)
Example scenario_rename :
  let w1 := go [ReadResolved (ResponseSuccess ann)] mounted in
  let w2 := go [SetRowCalled (UpdaterFunction rename)] w1 in
  let w3 := go [UpdateResolved (Some not_found)] w2 in
  data w2 = Some annX
  /\ updates w2 = [ {| update_from := "profiles"; update_values := annX;
                       update_eq_column := "id"; update_eq_value := "u1" |} ]
  /\ data w3 = Some annX
  /\ updates w3 = updates w2
  /\ logged w3
     = ["Auto-sync failed: JSON object requested, multiple (or no) rows returned"].
Proof. vm_compute. auto. Qed.

(** After the unmount a late read and a late change event change nothing. *)
Example scenario_unmount :
  let w1 := go [Unmounted] mounted in
  go [ReadResolved (ResponseSuccess ann); ChangeDelivered (UpdatePayload ann2)] w1 = w1.
Proof. vm_compute. reflexivity. Qed.

(** *** The further properties at the "profiles" / "u1" instance *)

(** X3 when only the schema option changes: the channel of the first render
    is released and the new one listens on the new schema. *)
Lemma resubscribe_releases_previous_witness :
  handles_issued mounted_busy = true
  /\ (let w1 := exec (subscription_effect String_of channel_topic "profiles" "u1"
                        private_schema) mounted_busy in
      channel_live w1 = true
      /\ (forall old, channelRef mounted_busy = Some old ->
                      registered old (supabase w1) = false /\ channelRef w1 <> Some old)
      /\ registered foreign (supabase w1) = registered foreign (supabase mounted_busy)
      /\ length (channels (supabase w1)) <= S (length (channels (supabase mounted_busy)))).
Proof.
  split; [reflexivity|].
  destruct (resubscribe_releases_previous Profile string String_of channel_topic
              "profiles" "u1" private_schema mounted_busy eq_refl)
    as (Hlive & _ & Hold & Hother & Hlen).
  split; [exact Hlive|]. split; [exact Hold|]. split; [|exact Hlen].
  apply Hother.
  - intros old H. vm_compute in H. injection H as <-. reflexivity.
  - simpl. lia.
Defined.

(** X4 for a late read, a late change event and a manual [unsubscribe]
    after the unmount. *)
Lemma unmount_is_final_witness :
  let es := [ReadResolved (ResponseSuccess ann); ChangeDelivered (UpdatePayload ann2);
             UnsubscribeCalled; Unmounted] in
  forallb store_or_cleanup es = true
  /\ go es (exec (step "profiles" "u1" defaults Unmounted) mounted)
     = exec (step "profiles" "u1" defaults Unmounted) mounted.
Proof.
  split; [reflexivity|].
  apply (unmount_is_final Profile string "profiles" "u1" defaults). reflexivity.
Defined.

(** X7 for an instance with [autoSync: false]. *)
Lemma autoSync_off_never_writes_witness :
  autoSync local_only = false
  /\ updates (run "profiles" "u1" local_only
                [ReadResolved (ResponseSuccess ann); SetRowCalled (UpdaterFunction rename);
                 SetRowCalled (UpdaterValue (Some ann2))] mounted)
     = updates mounted.
Proof.
  split; [reflexivity|].
  apply (autoSync_off_never_writes Profile string "profiles" "u1" local_only).
  reflexivity.
Defined.

(** X10 for an insert, an update and a delete: the delete wins. *)
Lemma last_change_event_wins_witness :
  channel_live mounted = true
  /\ (let w1 := go (map ChangeDelivered
                      ([InsertPayload ann; UpdatePayload ann2] ++ [DeletePayload]))
                   mounted in
      data w1 = None /\ isLoaded w1 = true).
Proof.
  split; [reflexivity|].
  apply (last_change_event_wins Profile string "profiles" "u1" defaults
           [InsertPayload ann; UpdatePayload ann2] DeletePayload mounted eq_refl).
Defined.

(** X11 after [unsubscribe], and after the unmount. *)
Lemma released_stays_released_witness :
  let es := [ReadResolved (ResponseSuccess ann); SetRowCalled (UpdaterFunction rename);
             ChangeDelivered (UpdatePayload ann2)] in
  let w1 := go [UnsubscribeCalled] mounted in
  let w2 := go [Unmounted] mounted in
  channel_live w1 = false /\ channel_live (go es w1) = false
  /\ isMounted w2 = false /\ isMounted (go es w2) = false.
Proof.
  cbv zeta. split; [reflexivity|]. split; [|split; [reflexivity|]].
  - apply (released_stays_released Profile string "profiles" "u1" defaults). reflexivity.
  - apply (released_stays_released Profile string "profiles" "u1" defaults). reflexivity.
Defined.

(** X12 for the registration the client held before the instance came. *)
Lemma only_own_channel_released_witness :
  let es := [ChangeDelivered (UpdatePayload ann2); UnsubscribeCalled; Unmounted] in
  (forall ch, channelRef mounted_busy = Some ch -> same_channel foreign ch = false)
  /\ registered foreign (supabase (go es mounted_busy)) = true.
Proof.
  cbv zeta.
  assert (H : forall ch, channelRef mounted_busy = Some ch ->
                         same_channel foreign ch = false).
  { intros ch H. vm_compute in H. injection H as <-. reflexivity. }
  split; [exact H|].
  unfold go.
  rewrite (only_own_channel_released Profile string "profiles" "u1" defaults _
             mounted_busy foreign H).
  reflexivity.
Defined.
